(** * m-onty: handwritten-note ingestion pipeline

    A shallow embedding of the three source files of the repository

    - [src/preprocess.py]   (module [Preprocess]):  orientation detection,
      quarter-turn rotation and the normalisation pipeline;
    - [src/ocr_vision.py]   (module [OcrVision]):   the vision extraction
      client, its tolerant response parsing and its cost accounting;
    - [src/ingest_notes.py] (module [IngestNotes]): the orchestrator for one
      image and for a directory.

    Conventions of the embedding.

    - A Python [float] is a rational number ([Q]): every finite float is
      one, and the comparisons the code performs on floats are exact.  Where
      the code does float arithmetic (the cost formula and the running
      total) the embedding does the same operations, in the same order, on
      exact rationals.  The built-in [round(x, 4)] is a collaborator: what
      it returns depends on the binary expansion of [x].
    - A decoded image (a numpy array of shape [(h, w, ...)]) is the list of
      its [h] rows, each a list of [w] pixels.
    - A Python exception is [Raise msg], where [msg] is [str(e)].
    - The collaborators that are not code of the repository (OpenCV, the
      vision service, the clock, the [json] module) are the fields of a
      class; the code of the repository is written over them. *)

From Stdlib Require Import List String Ascii Bool Arith ZArith QArith Qround Lia.
Import ListNotations.

Set Implicit Arguments.

Close Scope Q_scope.
Open Scope nat_scope.

Set Warnings "-register-all".

(** ** Results of calls that may raise *)

Inductive Res (A : Type) : Type :=
| Ok (a : A)
| Raise (msg : string).

Arguments Ok {A} a.
Arguments Raise {A} msg.

(** ** The parts of numpy the code uses *)

Module Numpy.

Definition count_if (A : Type) (f : A -> bool) (l : list A) : nat :=
  List.length (filter f l).

(** Membership in one bin of [np.histogram]: bins are half-open
    [lo <= x < hi], except the last one, which also holds its right
    edge. *)
Definition in_bin (lo hi : Q) (last : bool) (x : Q) : bool :=
  (Qle_bool lo x && (if last then Qle_bool x hi else negb (Qle_bool hi x)))%bool.

(** [np.histogram(a, bins=edges)[0]] for an explicit list of edges. *)
Fixpoint histogram (a : list Q) (edges : list Q) : list nat :=
  match edges with
  | lo :: ((hi :: rest) as tl) =>
      count_if (in_bin lo hi (match rest with [] => true | _ => false end)) a
        :: histogram a tl
  | _ => []
  end.

(** [np.argmax]: the index of the first occurrence of the maximum. *)
Fixpoint argmax_from (l : list nat) (i best_i best : nat) : nat :=
  match l with
  | [] => best_i
  | x :: l' =>
      if best <? x then argmax_from l' (S i) i x
      else argmax_from l' (S i) best_i best
  end.

Definition argmax (l : list nat) : nat :=
  match l with
  | [] => 0
  | x :: l' => argmax_from l' 1 0 x
  end.

End Numpy.

(** ** preprocess.py *)

Module Preprocess.

(** *** Quarter turns of a pixel grid ([cv2.rotate]) *)

Inductive RotateCode : Type :=
| ROTATE_90_CLOCKWISE
| ROTATE_180
| ROTATE_90_COUNTERCLOCKWISE.

Section Grid.

Variable pixel : Type.

Definition Image : Type := list (list pixel).

(** [image.shape[:2]]: (height, width). *)
Definition shape (image : Image) : nat * nat :=
  (List.length image, List.length (hd [] image)).

(** The images [cv2.imread] returns: a rectangle with at least one row
    and one column. *)
Definition rectangular (h w : nat) (image : Image) : Prop :=
  List.length image = h /\ Forall (fun row => List.length row = w) image.

Definition decoded (image : Image) : Prop :=
  exists h w, 0 < h /\ 0 < w /\ rectangular h w image.

(** Puts one row in front of the columns, pixel by pixel. *)
Fixpoint zip_cons (row : list pixel) (cols : Image) : Image :=
  match row, cols with
  | x :: row', c :: cols' => (x :: c) :: zip_cons row' cols'
  | _, _ => []
  end.

(** The [w] columns of an image, from left to right. *)
Fixpoint transpose (w : nat) (image : Image) : Image :=
  match image with
  | [] => repeat [] w
  | row :: image' => zip_cons row (transpose w image')
  end.

(** [cv2.rotate(image, code)].  Clockwise: row [i] of the result is
    column [i] of the source read from the bottom up; counterclockwise:
    the columns taken from right to left; 180: rows and columns both
    reversed. *)
Definition cv2_rotate (image : Image) (code : RotateCode) : Image :=
  let w := List.length (hd [] image) in
  match code with
  | ROTATE_90_CLOCKWISE => map (@rev pixel) (transpose w image)
  | ROTATE_180 => map (@rev pixel) (rev image)
  | ROTATE_90_COUNTERCLOCKWISE => rev (transpose w image)
  end.

End Grid.

(** *** The collaborators of the normaliser

    OpenCV and numpy calls whose results the code only passes on.
    [HoughLines] stands for lines 38-51 of [detect_orientation]: grey
    conversion, inverted Otsu threshold, Canny edges and [cv2.HoughLines];
    it is [None] when OpenCV reports no line, and otherwise the list of
    the detected [(rho, theta)] pairs. *)
Class Cv2 (pixel : Type) : Type := {
  imread : string -> option (Image pixel);
  HoughLines : Image pixel -> option (list (Q * Q));
  np_degrees : Q -> Q;
  warpAffine : Image pixel -> Q -> Image pixel;
  bilateralFilter : Image pixel -> Image pixel;
  clahe_lab : Image pixel -> Image pixel;
  float_str : Q -> string
}.

(** The metadata dictionary of [process_image] (the normalisation
    trace).  [final_size] is absent until the last statement sets it. *)
Record Metadata : Type := {
  original_path : string;
  original_size : nat * nat;
  rotation_applied : Q;
  steps : list string;
  final_size : option (nat * nat)
}.

Definition set_rotation_applied (angle : Q) (m : Metadata) : Metadata :=
  {| original_path := original_path m;
     original_size := original_size m;
     rotation_applied := angle;
     steps := steps m;
     final_size := final_size m |}.

Definition append_step (step : string) (m : Metadata) : Metadata :=
  {| original_path := original_path m;
     original_size := original_size m;
     rotation_applied := rotation_applied m;
     steps := steps m ++ [step];
     final_size := final_size m |}.

Definition set_final_size (sz : nat * nat) (m : Metadata) : Metadata :=
  {| original_path := original_path m;
     original_size := original_size m;
     rotation_applied := rotation_applied m;
     steps := steps m;
     final_size := Some sz |}.

(** The bin edges of [detect_orientation] (line 68). *)
Definition bins : list Q := [0; 45; 135; 225; 315; 360]%Q.

(** The correction angle of a dominant bin (lines 73-80). *)
Definition angle_of_bin (dominant_bin : nat) : Q :=
  if ((dominant_bin =? 0) || (dominant_bin =? 4))%bool then 0%Q
  else if dominant_bin =? 1 then 90%Q
  else if dominant_bin =? 2 then 180%Q
  else 270%Q.

(** Lines 57-80 of [detect_orientation]: the vote over the angles of the
    detected lines. *)
Definition dominant_angle (angles : list Q) : Q :=
  let hist := Numpy.histogram angles bins in
  let dominant_bin := Numpy.argmax hist in
  angle_of_bin dominant_bin.

Definition rotated_step (float_str : Q -> string) (angle : Q) : string :=
  ("rotated_" ++ float_str angle ++ "deg")%string.

Section Normaliser.

Context {pixel : Type} {cv2 : Cv2 pixel}.

(** Lines 57-61: the angle of every detected line, in degrees. *)
Definition line_angles (lines : list (Q * Q)) : list Q :=
  map (fun line => np_degrees (snd line)) lines.

Definition detect_orientation (image : Image pixel) : Q :=
  match HoughLines image with
  | None => 0%Q
  | Some lines => dominant_angle (line_angles lines)
  end.

Definition rotate_image (image : Image pixel) (angle : Q) : Image pixel :=
  if Qeq_bool angle 0 then image
  else if Qeq_bool angle 90 then cv2_rotate image ROTATE_90_CLOCKWISE
  else if Qeq_bool angle 180 then cv2_rotate image ROTATE_180
  else if Qeq_bool angle 270 then cv2_rotate image ROTATE_90_COUNTERCLOCKWISE
  else warpAffine image angle.

Definition enhance_contrast (image : Image pixel) : Image pixel :=
  clahe_lab image.

Definition remove_noise (image : Image pixel) : Image pixel :=
  bilateralFilter image.

(** The orientation stage of [process_image] (lines 190-197). *)
Definition orient_stage (auto_orient : bool)
    (st : Image pixel * Metadata) : Image pixel * Metadata :=
  let (image, metadata) := st in
  if auto_orient then
    let angle := detect_orientation image in
    if negb (Qeq_bool angle 0) then
      (rotate_image image angle,
       append_step (rotated_step float_str angle)
         (set_rotation_applied angle metadata))
    else (image, metadata)
  else (image, metadata).

(** Lines 199-202. *)
Definition denoise_stage (denoise : bool)
    (st : Image pixel * Metadata) : Image pixel * Metadata :=
  let (image, metadata) := st in
  if denoise then (remove_noise image, append_step "denoised" metadata)
  else (image, metadata).

(** Lines 204-207. *)
Definition enhance_stage (enhance : bool)
    (st : Image pixel * Metadata) : Image pixel * Metadata :=
  let (image, metadata) := st in
  if enhance then
    (enhance_contrast image, append_step "contrast_enhanced" metadata)
  else (image, metadata).

Definition process_image (image_path : string)
    (auto_orient enhance denoise : bool) : Res (Image pixel * Metadata) :=
  match imread image_path with
  | None => Raise ("Could not load image: " ++ image_path)
  | Some image =>
      let metadata :=
        {| original_path := image_path;
           original_size := shape image;
           rotation_applied := 0%Q;
           steps := [];
           final_size := None |} in
      let (image, metadata) :=
        enhance_stage enhance
          (denoise_stage denoise
             (orient_stage auto_orient (image, metadata))) in
      Ok (image, set_final_size (shape image) metadata)
  end.

End Normaliser.

End Preprocess.

(** ** Python values, strings and the state the code mutates *)

(** The values that travel through the result dictionaries: what
    [json.loads] can return and what the code adds.  A dictionary keeps its
    keys in insertion order. *)
Inductive pyval : Type :=
| PNone
| PBool (b : bool)
| PInt (n : Z)
| PFloat (x : Q)
| PStr (s : string)
| PList (l : list pyval)
| PDict (d : list (string * pyval)).

Module Py.

(** [d.get(k)] *)
Fixpoint dict_get (k : string) (d : list (string * pyval)) : option pyval :=
  match d with
  | [] => None
  | (k', v) :: d' => if String.eqb k k' then Some v else dict_get k d'
  end.

(** [d[k] = v] *)
Fixpoint dict_set (k : string) (v : pyval) (d : list (string * pyval))
    : list (string * pyval) :=
  match d with
  | [] => [(k, v)]
  | (k', v') :: d' =>
      if String.eqb k k' then (k, v) :: d' else (k', v') :: dict_set k v d'
  end.

(** [sub in s] *)
Fixpoint contains (sub s : string) : bool :=
  (prefix sub s ||
   match s with
   | EmptyString => false
   | String _ s' => contains sub s'
   end)%bool.

(** [s.split(sep)] for a non-empty separator: a left-to-right scan for
    non-overlapping occurrences.  [skip] counts the characters of a
    separator still to be dropped, [cur] is the piece being read. *)
Fixpoint split_scan (sep : string) (skip : nat) (cur s : string)
    : list string :=
  match s with
  | EmptyString => [cur]
  | String c s' =>
      match skip with
      | S k => split_scan sep k cur s'
      | O =>
          if prefix sep s
          then cur :: split_scan sep (String.length sep - 1) EmptyString s'
          else split_scan sep 0 (cur ++ String c EmptyString) s'
      end
  end.

Definition split (sep s : string) : list string :=
  split_scan sep 0 EmptyString s.

(** [str.isspace] on one character of the 8-bit range. *)
Definition is_space (c : ascii) : bool :=
  let n := nat_of_ascii c in
  ((9 <=? n) && (n <=? 13) || (28 <=? n) && (n <=? 32)
   || (n =? 133) || (n =? 160))%bool.

Fixpoint lstrip (s : string) : string :=
  match s with
  | String c s' => if is_space c then lstrip s' else s
  | EmptyString => EmptyString
  end.

Fixpoint rstrip (s : string) : string :=
  match s with
  | EmptyString => EmptyString
  | String c s' =>
      match rstrip s' with
      | EmptyString => if is_space c then EmptyString else String c EmptyString
      | r => String c r
      end
  end.

(** [s.strip()] *)
Definition strip (s : string) : string := rstrip (lstrip s).

End Py.

(** What a file written by the pipeline holds.  [JsonResult r] is the text
    [json.dumps(r, indent=2)], kept symbolic. *)
Inductive FileBody (result summary : Type) : Type :=
| Text (s : string)
| Jpeg (encoded : string)
| JsonResult (r : result)
| JsonSummary (s : summary).

Arguments Text {result summary} s.
Arguments Jpeg {result summary} encoded.
Arguments JsonResult {result summary} r.
Arguments JsonSummary {result summary} s.

(** ** A state and exception monad for the effectful methods *)

Module Eff.

Definition M (S A : Type) : Type := S -> Res A * S.

Definition ret {S A : Type} (a : A) : M S A := fun s => (Ok a, s).

Definition bind {S A B : Type} (m : M S A) (k : A -> M S B) : M S B :=
  fun s =>
    match m s with
    | (Ok a, s') => k a s'
    | (Raise msg, s') => (Raise msg, s')
    end.

Definition raise {S A : Type} (msg : string) : M S A :=
  fun s => (Raise msg, s).

Definition get {S : Type} : M S S := fun s => (Ok s, s).

Definition modify {S : Type} (f : S -> S) : M S unit :=
  fun s => (Ok tt, f s).

(** A pure call that may raise. *)
Definition lift {S A : Type} (r : Res A) : M S A := fun s => (r, s).

(** [try: body  except Exception as e: handler(e)]: the handler runs in
    the state the body left behind. *)
Definition try_except {S A : Type} (body : M S A) (handler : string -> M S A)
    : M S A :=
  fun s =>
    match body s with
    | (Ok a, s') => (Ok a, s')
    | (Raise msg, s') => handler msg s'
    end.

(** Runs a computation on the second component of a paired state. *)
Definition on_snd {L S A : Type} (m : M S A) : M (L * S) A :=
  fun ls =>
    let (r, s') := m (snd ls) in (r, (fst ls, s')).

(** Changes the first component of a paired state. *)
Definition on_fst {L S : Type} (f : L -> L) : M (L * S) unit :=
  fun ls => (Ok tt, (f (fst ls), snd ls)).

End Eff.

Declare Scope eff_scope.
Delimit Scope eff_scope with eff.

Notation "x <- m ;; k" := (Eff.bind m (fun x => k))
  (at level 61, m at next level, right associativity) : eff_scope.
Notation "m ;;; k" := (Eff.bind m (fun _ => k))
  (at level 61, right associativity) : eff_scope.

(** ** The records of the orchestrator and the world it runs in *)

(** The result dictionary of [process_single_image]; a key that has not
    been assigned is [None]. *)
Record ProcessingResult : Type := {
  source_image : string;
  timestamp : string;
  success : bool;
  preprocessed_image : option string;
  preprocessing : option Preprocess.Metadata;
  ocr : option pyval;
  output_markdown : option string;
  output_json : option string;
  error : option string
}.

(** The summary dictionary of [process_directory] (lines 263-270). *)
Record BatchSummary : Type := {
  summary_timestamp : string;
  total_images : nat;
  successful : nat;
  failed : nat;
  summary_total_cost : Q;
  results : list ProcessingResult
}.

(** The mutable state: the clock behind [datetime.now()], the running cost
    of the one [VisionOCR] instance ([self.total_cost]) and the files
    written so far, oldest first. *)
Record World : Type := {
  clock : nat;
  total_cost : Q;
  files : list (string * FileBody ProcessingResult BatchSummary)
}.

Definition tick (w : World) : World :=
  {| clock := S (clock w); total_cost := total_cost w; files := files w |}.

Definition add_cost (c : Q) (w : World) : World :=
  {| clock := clock w; total_cost := (total_cost w + c)%Q; files := files w |}.

Definition add_file (path : string)
    (body : FileBody ProcessingResult BatchSummary) (w : World) : World :=
  {| clock := clock w; total_cost := total_cost w;
     files := files w ++ [(path, body)] |}.

(** [datetime.now()]: reads the clock, which then moves on. *)
Definition now : Eff.M World nat :=
  fun w => (Ok (clock w), tick w).

(** ** ocr_vision.py *)

Module OcrVision.

Record Usage : Type := {
  prompt_tokens : Z;
  completion_tokens : Z;
  total_tokens : Z
}.

(** What the code reads of a chat completion:
    [response.choices[0].message.content] and [response.usage]. *)
Record ChatCompletion : Type := {
  content : option string;
  usage : Usage
}.

(** The collaborators of the client.  [read_base64] is the body of
    [encode_image] (open, read, base64); [chat_completions_create] takes
    the model, the prompt and the image URL; [json_loads] is [None] where
    [json.loads] raises [json.JSONDecodeError]; [default_prompt] is the
    constant of lines 71-91; [isoformat] renders a clock reading;
    [round4 x] is the built-in [round(x, 4)]. *)
Class VisionService : Type := {
  model : string;
  read_base64 : string -> Res string;
  chat_completions_create : string -> string -> string -> Res ChatCompletion;
  json_loads : string -> option pyval;
  default_prompt : string;
  isoformat : nat -> string;
  round4 : Q -> Q
}.

Definition fence_json : string := "```json".
Definition fence : string := "```".

(** Lines 125-130: the text handed to [json.loads]. *)
Definition json_str_of (content : string) : string :=
  if Py.contains fence_json content then
    Py.strip (nth 0 (Py.split fence (nth 1 (Py.split fence_json content) EmptyString))
                EmptyString)
  else if Py.contains fence content then
    Py.strip (nth 0 (Py.split fence (nth 1 (Py.split fence content) EmptyString))
                EmptyString)
  else content.

(** Lines 135-143: the record used when the response is not JSON. *)
Definition fallback_result (content : string) : pyval :=
  PDict [ ("transcription", PStr content);
          ("key_concepts", PList []);
          ("themes", PList []);
          ("questions_or_insights", PList []);
          ("suggested_tags", PList []);
          ("quality_rating", PInt 3);
          ("notes", PStr "Response was not in expected JSON format") ]%string.

(** Lines 159-161. *)
Definition call_cost (u : Usage) : Q :=
  let input_cost := (inject_Z (prompt_tokens u) / 1000000 * 2.50)%Q in
  let output_cost := (inject_Z (completion_tokens u) / 1000000 * 10.00)%Q in
  (input_cost + output_cost)%Q.

(** [len(x)] for the values [len] accepts. *)
Definition py_len (v : pyval) : Res nat :=
  match v with
  | PStr s => Ok (String.length s)
  | PList l => Ok (List.length l)
  | PDict d => Ok (List.length d)
  | _ => Raise "object has no len()"
  end.

Section Client.

Context {svc : VisionService}.

Local Open Scope eff_scope.

Definition encode_image (image_path : string) : Res string :=
  read_base64 image_path.

(** Lines 122-143: parse the response body, falling back to the raw
    text on a decode error. *)
Definition parse_content (content : string) : pyval :=
  match json_loads (json_str_of content) with
  | Some result => result
  | None => fallback_result content
  end.

(** Lines 145-155: the metadata entry, before the costs are added. *)
Definition metadata_of (stamp : nat) (image_path : string) (u : Usage)
    : list (string * pyval) :=
  [ ("model", PStr model);
    ("timestamp", PStr (isoformat stamp));
    ("image_path", PStr image_path);
    ("tokens_used",
     PDict [ ("prompt", PInt (prompt_tokens u));
             ("completion", PInt (completion_tokens u));
             ("total", PInt (total_tokens u)) ]) ]%string.

Definition extract_text_and_analyze (image_path : string)
    (analysis_prompt : option string) : Eff.M World pyval :=
  base64_image <- Eff.lift (encode_image image_path) ;;
  let analysis_prompt :=
    match analysis_prompt with
    | None => default_prompt
    | Some p => p
    end in
  response <- Eff.lift
    (chat_completions_create model analysis_prompt
       ("data:image/jpeg;base64," ++ base64_image)) ;;
  content <-
    match content response with
    | Some c => Eff.ret c
    | None => Eff.raise "argument of type 'NoneType' is not iterable"
    end ;;
  let result := parse_content content in
  stamp <- now ;;
  d <-
    match result with
    | PDict d => Eff.ret d
    | _ => Eff.raise "object does not support item assignment"
    end ;;
  let metadata := metadata_of stamp image_path (usage response) in
  let call_cost := call_cost (usage response) in
  Eff.modify (add_cost call_cost) ;;;
  total <- (fun w => (Ok (total_cost w), w)) ;;
  let metadata :=
    Py.dict_set "total_session_cost" (PFloat (round4 total))
      (Py.dict_set "estimated_cost" (PFloat (round4 call_cost))
         metadata) in
  let d := Py.dict_set "metadata" (PDict metadata) d in
  _ <- Eff.lift
    (py_len match Py.dict_get "transcription" d with
            | Some v => v
            | None => PStr EmptyString
            end) ;;
  Eff.ret (PDict d).

(** [batch_process] (lines 176-207). *)
Fixpoint batch_process_loop (image_paths : list string)
    (analysis_prompt : option string) (results : list pyval)
    : Eff.M World (list pyval) :=
  match image_paths with
  | [] => Eff.ret results
  | image_path :: rest =>
      result <- Eff.try_except
        (extract_text_and_analyze image_path analysis_prompt)
        (fun e =>
           stamp <- now ;;
           Eff.ret
             (PDict [ ("error", PStr e);
                      ("image_path", PStr image_path);
                      ("metadata",
                       PDict [("timestamp", PStr (isoformat stamp))]) ]%string)) ;;
      batch_process_loop rest analysis_prompt (results ++ [result])
  end.

Definition batch_process (image_paths : list string)
    (analysis_prompt : option string) : Eff.M World (list pyval) :=
  batch_process_loop image_paths analysis_prompt [].

End Client.

End OcrVision.

(** ** ingest_notes.py *)

Module IngestNotes.

(** The fields [__init__] sets from its arguments. *)
Record Pipeline : Type := {
  output_dir : string;
  preprocess_enabled : bool;
  save_processed : bool
}.

(** The host the orchestrator runs on.  [write_error p] is the message of
    the [OSError] raised when [p] cannot be written ([None] when it can);
    [mkdir_error] likewise for [Path.mkdir]; [mkstemp] names the next
    temporary file; [create_markdown] is [_create_markdown] (lines
    151-220), a rendering through [yaml.dump] and string formatting that
    reads the clock and may raise; [glob] lists a directory;
    [path_leb] is the order of [Path] objects that [sorted] uses. *)
Class Host (pixel : Type) : Type := {
  path_stem : string -> string;
  strftime : nat -> string;
  mkdir_error : string -> option string;
  write_error : string -> option string;
  imencode_jpg : Preprocess.Image pixel -> string;
  mkstemp : nat -> Res string;
  create_markdown : pyval -> string -> nat -> Res string;
  glob : string -> string -> list string;
  path_leb : string -> string -> bool
}.

(** [a / b] on paths. *)
Definition path_join (a b : string) : string := (a ++ "/" ++ b)%string.

Definition notes_dir (p : Pipeline) : string :=
  path_join (output_dir p) "notes".

Definition processed_images_dir (p : Pipeline) : string :=
  path_join (output_dir p) "processed_images".

(** Assignments to the keys of the result dictionary. *)
Definition set_success (b : bool) (r : ProcessingResult) : ProcessingResult :=
  {| source_image := source_image r; timestamp := timestamp r;
     success := b; preprocessed_image := preprocessed_image r;
     preprocessing := preprocessing r; ocr := ocr r;
     output_markdown := output_markdown r; output_json := output_json r;
     error := error r |}.

Definition set_preprocessed_image (p : string) (r : ProcessingResult)
    : ProcessingResult :=
  {| source_image := source_image r; timestamp := timestamp r;
     success := success r; preprocessed_image := Some p;
     preprocessing := preprocessing r; ocr := ocr r;
     output_markdown := output_markdown r; output_json := output_json r;
     error := error r |}.

Definition set_preprocessing (m : Preprocess.Metadata) (r : ProcessingResult)
    : ProcessingResult :=
  {| source_image := source_image r; timestamp := timestamp r;
     success := success r; preprocessed_image := preprocessed_image r;
     preprocessing := Some m; ocr := ocr r;
     output_markdown := output_markdown r; output_json := output_json r;
     error := error r |}.

Definition set_ocr (v : pyval) (r : ProcessingResult) : ProcessingResult :=
  {| source_image := source_image r; timestamp := timestamp r;
     success := success r; preprocessed_image := preprocessed_image r;
     preprocessing := preprocessing r; ocr := Some v;
     output_markdown := output_markdown r; output_json := output_json r;
     error := error r |}.

Definition set_output_markdown (p : string) (r : ProcessingResult)
    : ProcessingResult :=
  {| source_image := source_image r; timestamp := timestamp r;
     success := success r; preprocessed_image := preprocessed_image r;
     preprocessing := preprocessing r; ocr := ocr r;
     output_markdown := Some p; output_json := output_json r;
     error := error r |}.

Definition set_output_json (p : string) (r : ProcessingResult)
    : ProcessingResult :=
  {| source_image := source_image r; timestamp := timestamp r;
     success := success r; preprocessed_image := preprocessed_image r;
     preprocessing := preprocessing r; ocr := ocr r;
     output_markdown := output_markdown r; output_json := Some p;
     error := error r |}.

Definition set_error (e : string) (r : ProcessingResult) : ProcessingResult :=
  {| source_image := source_image r; timestamp := timestamp r;
     success := success r; preprocessed_image := preprocessed_image r;
     preprocessing := preprocessing r; ocr := ocr r;
     output_markdown := output_markdown r; output_json := output_json r;
     error := Some e |}.

(** [sorted]: a stable insertion sort. *)
Fixpoint insert_sorted (leb : string -> string -> bool) (x : string)
    (l : list string) : list string :=
  match l with
  | [] => [x]
  | y :: l' => if leb x y then x :: l else y :: insert_sorted leb x l'
  end.

Definition sorted (leb : string -> string -> bool) (l : list string)
    : list string :=
  fold_right (insert_sorted leb) [] l.

Section Orchestrator.

Context {pixel : Type} {cv2 : Preprocess.Cv2 pixel}
        {svc : OcrVision.VisionService} {host : Host pixel}.

Variable self : Pipeline.

Local Open Scope eff_scope.

(** [Path.write_text]. *)
Definition write_text (path : string)
    (body : FileBody ProcessingResult BatchSummary) : Eff.M World unit :=
  match write_error path with
  | Some msg => Eff.raise msg
  | None => Eff.modify (add_file path body)
  end.

(** [cv2.imwrite]: reports a failure by its return value, which the
    code does not read. *)
Definition cv2_imwrite (path : string) (image : Preprocess.Image pixel)
    : Eff.M World unit :=
  match write_error path with
  | Some _ => Eff.ret tt
  | None => Eff.modify (add_file path (Jpeg (imencode_jpg image)))
  end.

(** [ImagePreprocessor.save_processed_image] (preprocess.py, lines
    215-233). *)
Definition save_processed_image (image : Preprocess.Image pixel)
    (output_path : string) : Eff.M World unit :=
  match mkdir_error output_path with
  | Some msg => Eff.raise msg
  | None => cv2_imwrite output_path image
  end.

(** Step 1 of [process_single_image] (lines 90-115): yields the path
    handed to the extraction client. *)
Definition preprocess_step (image_path : string)
    : Eff.M (ProcessingResult * World) string :=
  if preprocess_enabled self then
    pm <- Eff.lift (Preprocess.process_image image_path true true true) ;;
    let (processed_image, preprocess_metadata) :=
      pm : Preprocess.Image pixel * Preprocess.Metadata in
    if save_processed self then
      let processed_path :=
        path_join (processed_images_dir self)
          (path_stem image_path ++ "_processed.jpg") in
      Eff.on_snd (save_processed_image processed_image processed_path) ;;;
      Eff.on_fst (set_preprocessed_image processed_path) ;;;
      Eff.on_fst (set_preprocessing preprocess_metadata) ;;;
      Eff.ret processed_path
    else
      temp_path <- Eff.on_snd
        (fun w => (mkstemp (List.length (files w)), w)) ;;
      Eff.on_snd (cv2_imwrite temp_path processed_image) ;;;
      Eff.ret temp_path
  else Eff.ret image_path.

(** The body of the [try] block (lines 90-143). *)
Definition process_body (image_path : string)
    (custom_prompt : option string)
    : Eff.M (ProcessingResult * World) unit :=
  ocr_input_path <- preprocess_step image_path ;;
  ocr_result <- Eff.on_snd
    (OcrVision.extract_text_and_analyze ocr_input_path custom_prompt) ;;
  Eff.on_fst (set_ocr ocr_result) ;;;
  Eff.on_fst (set_success true) ;;;
  stamp <- Eff.on_snd now ;;
  let base_name := (strftime stamp ++ "_" ++ path_stem image_path)%string in
  let output_md := path_join (notes_dir self) (base_name ++ ".md") in
  let output_json := path_join (notes_dir self) (base_name ++ ".json") in
  stamp' <- Eff.on_snd now ;;
  markdown_content <- Eff.lift (create_markdown ocr_result image_path stamp') ;;
  Eff.on_snd (write_text output_md (Text markdown_content)) ;;;
  Eff.on_fst (set_output_markdown output_md) ;;;
  rw <- Eff.get ;;
  Eff.on_snd (write_text output_json (JsonResult (fst rw))) ;;;
  Eff.on_fst (set_output_json output_json).

(** [process_single_image] (lines 68-149): never raises. *)
Definition process_single_image (image_path : string)
    (custom_prompt : option string) (w : World)
    : ProcessingResult * World :=
  let result :=
    {| source_image := image_path;
       timestamp := OcrVision.isoformat (clock w);
       success := false;
       preprocessed_image := None;
       preprocessing := None;
       ocr := None;
       output_markdown := None;
       output_json := None;
       error := None |} in
  snd (Eff.try_except
         (process_body image_path custom_prompt)
         (fun e => Eff.on_fst (set_error e))
         (result, tick w)).

(** The loop of [process_directory] (lines 245-252). *)
Fixpoint process_all (image_paths : list string)
    (custom_prompt : option string) (results : list ProcessingResult)
    (w : World) : list ProcessingResult * World :=
  match image_paths with
  | [] => (results, w)
  | image_path :: rest =>
      let (result, w') := process_single_image image_path custom_prompt w in
      process_all rest custom_prompt (results ++ [result]) w'
  end.

(** [process_directory] (lines 222-274). *)
Definition process_directory (directory pattern : string)
    (custom_prompt : option string)
    : Eff.M World (list ProcessingResult) :=
  let image_paths := sorted path_leb (glob directory pattern) in
  match image_paths with
  | [] => Eff.ret []
  | _ :: _ =>
      results <- (fun w =>
        let (rs, w') := process_all image_paths custom_prompt [] w in
        (Ok rs, w')) ;;
      let successful := Numpy.count_if success results in
      stamp <- now ;;
      let summary_path :=
        path_join (output_dir self)
          ("batch_summary_" ++ strftime stamp ++ ".json") in
      stamp' <- now ;;
      total <- (fun w => (Ok (total_cost w), w)) ;;
      let summary :=
        {| summary_timestamp := OcrVision.isoformat stamp';
           total_images := List.length results;
           successful := successful;
           failed := List.length results - successful;
           summary_total_cost := total;
           results := results |} in
      write_text summary_path (JsonSummary summary) ;;;
      Eff.ret results
  end.

End Orchestrator.

End IngestNotes.

(** ** The wording of the specification, for comparison with the code *)

Module SpecWords.

(** The vote as the specification words it: four bins, each 90 degrees
    wide, centred at 0, 90, 180 and 270 degrees, with edges at 45, 135,
    225 and 315; the part of the circle from 315 to 360 belongs to the
    bin centred at 0. *)
Definition in_merged_bin (k : nat) (x : Q) : bool :=
  match k with
  | 0 => (Numpy.in_bin 0 45 false x || Numpy.in_bin 315 360 true x)%bool
  | 1 => Numpy.in_bin 45 135 false x
  | 2 => Numpy.in_bin 135 225 false x
  | 3 => Numpy.in_bin 225 315 false x
  | _ => false
  end.

Definition merged_count (k : nat) (angles : list Q) : nat :=
  Numpy.count_if (in_merged_bin k) angles.

Definition merged_bin_angle (k : nat) : Q :=
  match k with
  | 0 => 0%Q
  | 1 => 90%Q
  | 2 => 180%Q
  | _ => 270%Q
  end.

(** [result] is the angle of a merged bin that no other merged bin
    outvotes. *)
Definition dominant_of_merged (angles : list Q) (result : Q) : bool :=
  existsb
    (fun b =>
       (forallb (fun j => merged_count j angles <=? merged_count b angles)
          [0; 1; 2; 3]
        && Qeq_bool result (merged_bin_angle b))%bool)
    [0; 1; 2; 3].

(** [l1] is [l2] with some elements left out, the others in order. *)
Inductive subsequence (A : Type) : list A -> list A -> Prop :=
| subseq_nil : subsequence [] []
| subseq_skip : forall x l1 l2, subsequence l1 l2 -> subsequence l1 (x :: l2)
| subseq_keep : forall x l1 l2,
    subsequence l1 l2 -> subsequence (x :: l1) (x :: l2).

End SpecWords.

(** ** Reading the records of the extraction client *)

Module Ledger.

Import OcrVision.

(** The entry [key] of [result['metadata']]. *)
Definition metadata_entry (key : string) (result : pyval) : option pyval :=
  match result with
  | PDict d =>
      match Py.dict_get "metadata" d with
      | Some (PDict m) => Py.dict_get key m
      | _ => None
      end
  | _ => None
  end.



(** The entry [key] of a record. *)
Definition field (key : string) (result : pyval) : option pyval :=
  match result with
  | PDict d => Py.dict_get key d
  | _ => None
  end.


Section Calls.

Context {svc : VisionService}.

Definition prompt_of (analysis_prompt : option string) : string :=
  match analysis_prompt with
  | None => default_prompt
  | Some p => p
  end.


End Calls.

End Ledger.

(** ** Concrete worlds on which the statements below are exercised *)

Module Demo.

(** A grey page of two rows and three columns. *)
Definition page : Preprocess.Image nat := [[1; 2; 3]; [4; 5; 6]].

Definition show_angle (a : Q) : string :=
  if Qeq_bool a 90 then "90.0"
  else if Qeq_bool a 180 then "180.0"
  else if Qeq_bool a 270 then "270.0"
  else "0.0".

(** A decoder that finds [page] everywhere and a detector that finds the
    given lines; the filters leave the pixels alone and a radian is
    630/11 degrees. *)
Definition cv2_with (lines : option (list (Q * Q))) : Preprocess.Cv2 nat :=
  {| Preprocess.imread := fun _ => Some page;
     Preprocess.HoughLines := fun _ => lines;
     Preprocess.np_degrees := fun theta => (theta * (630 # 11))%Q;
     Preprocess.warpAffine := fun image _ => image;
     Preprocess.bilateralFilter := fun image => image;
     Preprocess.clahe_lab := fun image => image;
     Preprocess.float_str := show_angle |}.

Definition cv2_blank : Preprocess.Cv2 nat := cv2_with None.

(** Two lines at a quarter turn (theta = 11/7). *)
Definition cv2_sideways : Preprocess.Cv2 nat :=
  cv2_with (Some [(10, 11 # 7); (25, 11 # 7)]%Q).

(** The response of [svc_plain]. *)
Definition plain_response : OcrVision.ChatCompletion :=
  {| OcrVision.content := Some "Dasein is being-in-the-world"%string;
     OcrVision.usage :=
       {| OcrVision.prompt_tokens := 10;
          OcrVision.completion_tokens := 0;
          OcrVision.total_tokens := 10 |} |}.

(** The nearest multiple of 1/10000, the upper one from half-way on.
    The sample services below round with it; on the costs and running
    totals of their calls (0.000025, 0.00005, 0.006, 0.012) it returns
    what [round(x, 4)] returns. *)
Definition four_decimals (x : Q) : Q :=
  (inject_Z (Qfloor (x * 10000 + (1 # 2))) / 10000)%Q.

(** A service that answers every image with the same unstructured text
    and reports ten prompt tokens. *)
Definition svc_plain : OcrVision.VisionService :=
  {| OcrVision.model := "gpt-4o";
     OcrVision.read_base64 := fun _ => Ok "aGVsbG8=";
     OcrVision.chat_completions_create := fun _ _ _ => Ok plain_response;
     OcrVision.json_loads := fun s =>
       if String.eqb s "{}" then Some (PDict []) else None;
     OcrVision.default_prompt := "Transcribe the page.";
     OcrVision.isoformat := fun _ => "2024-11-02T10:00:00";
     OcrVision.round4 := four_decimals |}%string.

(** A host with no matching file in any directory, on which the paths
    that contain [locked] cannot be written. *)
Definition host : IngestNotes.Host nat :=
  {| IngestNotes.path_stem := fun _ => "page1";
     IngestNotes.strftime := fun _ => "20241102_100000";
     IngestNotes.mkdir_error := fun _ => None;
     IngestNotes.write_error := fun p =>
       if Py.contains "locked" p then Some "[Errno 13] Permission denied"
       else None;
     IngestNotes.imencode_jpg := fun _ => "jpeg";
     IngestNotes.mkstemp := fun _ => Ok "/tmp/tmpa1b2.jpg";
     IngestNotes.create_markdown := fun _ _ _ => Ok "# Notes from page1";
     IngestNotes.glob := fun _ _ => [];
     IngestNotes.path_leb := String.leb |}%string.

Definition world0 : World :=
  {| clock := 0; total_cost := 0%Q; files := [] |}.

(** Output below [data]; normalised copies kept. *)
Definition pipeline_saving : IngestNotes.Pipeline :=
  {| IngestNotes.output_dir := "data";
     IngestNotes.preprocess_enabled := true;
     IngestNotes.save_processed := true |}.

(** Output below [data]; normalised copies only in a temporary file. *)
Definition pipeline_in_memory : IngestNotes.Pipeline :=
  {| IngestNotes.output_dir := "data";
     IngestNotes.preprocess_enabled := true;
     IngestNotes.save_processed := false |}.

(** Output below a directory that cannot be written. *)
Definition pipeline_locked : IngestNotes.Pipeline :=
  {| IngestNotes.output_dir := "locked";
     IngestNotes.preprocess_enabled := false;
     IngestNotes.save_processed := false |}.

(** One image on the host whose notes directory cannot be written. *)
Definition locked_run : ProcessingResult * World :=
  IngestNotes.process_single_image (cv2 := cv2_blank) (svc := svc_plain)
    (host := host) pipeline_locked "inbox/page1.jpg" None world0.

(** One image with normalisation on and no copy kept. *)
Definition in_memory_run : ProcessingResult * World :=
  IngestNotes.process_single_image (cv2 := cv2_sideways) (svc := svc_plain)
    (host := host) pipeline_in_memory "inbox/page1.jpg" None world0.

(** One image with normalisation on and the copy kept. *)
Definition saving_run : ProcessingResult * World :=
  IngestNotes.process_single_image (cv2 := cv2_sideways) (svc := svc_plain)
    (host := host) pipeline_saving "inbox/page1.jpg" None world0.

(** The trace of the normaliser for [page] under [cv2_sideways]. *)
Definition sideways_trace : Preprocess.Metadata :=
  {| Preprocess.original_path := "inbox/page1.jpg";
     Preprocess.original_size := (2, 3);
     Preprocess.rotation_applied := 90%Q;
     Preprocess.steps := ["rotated_90.0deg"; "denoised"; "contrast_enhanced"];
     Preprocess.final_size := Some (3, 2) |}%string.

(** A directory without any matching file. *)
Definition empty_batch : Res (list ProcessingResult) * World :=
  IngestNotes.process_directory (cv2 := cv2_blank) (svc := svc_plain)
    (host := host) pipeline_saving "inbox" "*.jpg" None world0.

(** One call of the client. *)
Definition plain_call : Res pyval * World :=
  OcrVision.extract_text_and_analyze (svc := svc_plain) "inbox/page1.jpg"
    None world0.

End Demo.

From Stdlib Require Import Permutation Sorted DecimalString.

(** ** Notions used by the further properties of the normaliser *)

Module Variants.

(** The same OpenCV with another affine fallback behind [rotate_image]. *)
Definition with_warpAffine (pixel : Type) (cv2 : Preprocess.Cv2 pixel)
    (warp : Preprocess.Image pixel -> Q -> Preprocess.Image pixel)
    : Preprocess.Cv2 pixel :=
  {| Preprocess.imread := Preprocess.imread;
     Preprocess.HoughLines := Preprocess.HoughLines;
     Preprocess.np_degrees := Preprocess.np_degrees;
     Preprocess.warpAffine := warp;
     Preprocess.bilateralFilter := Preprocess.bilateralFilter;
     Preprocess.clahe_lab := Preprocess.clahe_lab;
     Preprocess.float_str := Preprocess.float_str |}.

(** An angle between the first and the last edge of [Preprocess.bins]. *)
Definition in_range (a : Q) : bool :=
  (Qle_bool 0 a && Qle_bool a 360)%bool.

(** (height, width) after a quarter turn. *)
Definition swap_shape (s : nat * nat) : nat * nat := (snd s, fst s).

(** A quarter turn to either side. *)
Definition is_quarter_turn (angle : Q) : bool :=
  (Qeq_bool angle 90 || Qeq_bool angle 270)%bool.

End Variants.

(** ** More of the Python string methods the code calls *)

Module PyText.

(** [sep.join(parts)] *)
Definition join (sep : string) (parts : list string) : string :=
  String.concat sep parts.

(** [c not in s] for one character. *)
Fixpoint lacks (c : ascii) (s : string) : bool :=
  match s with
  | EmptyString => true
  | String a s' => (negb (Ascii.eqb c a) && lacks c s')%bool
  end.

(** The character of which the fences are made. *)
Definition backtick : ascii := "`"%char.

End PyText.

(** ** ingest_notes.py: the rendering of a record *)

Module Markdown.

Local Open Scope string_scope.

(** The collaborators of [_create_markdown]: [yaml_dump] is
    [yaml.dump(., default_flow_style=False, allow_unicode=True)];
    [strftime_date] renders a clock reading as year-month-day;
    [path_name] is [Path.name]; [str_other] is [str] on a value that is
    not text; [format_4f] is [format(., '.4f')], which raises on a value
    that is not a number. *)
Class Renderer : Type := {
  yaml_dump : pyval -> string;
  strftime_date : nat -> string;
  path_name : string -> string;
  str_other : pyval -> string;
  format_4f : pyval -> Res string
}.

(** [bool(v)] *)
Definition truthy (v : pyval) : bool :=
  match v with
  | PNone => false
  | PBool b => b
  | PInt n => negb (n =? 0)%Z
  | PFloat x => negb (Qeq_bool x 0)
  | PStr s => negb (String.eqb s "")
  | PList l => match l with [] => false | _ => true end
  | PDict d => match d with [] => false | _ => true end
  end.

(** [type(v).__name__] *)
Definition type_name (v : pyval) : string :=
  match v with
  | PNone => "NoneType"
  | PBool _ => "bool"
  | PInt _ => "int"
  | PFloat _ => "float"
  | PStr _ => "str"
  | PList _ => "list"
  | PDict _ => "dict"
  end.

(** [d.get(key, default)] *)
Definition get_or (key : string) (default : pyval)
    (d : list (string * pyval)) : pyval :=
  match Py.dict_get key d with
  | Some v => v
  | None => default
  end.

(** [v.get(key, default)] on a value that need not be a dictionary. *)
Definition attr_get (v : pyval) (key : string) (default : pyval) : Res pyval :=
  match v with
  | PDict d => Ok (get_or key default d)
  | _ => Raise ("'" ++ type_name v ++ "' object has no attribute 'get'")
  end.

(** The values a [for] loop over [v] visits. *)
Definition iterate (v : pyval) : Res (list pyval) :=
  match v with
  | PList l => Ok l
  | PStr s =>
      Ok (map (fun c => PStr (String c EmptyString)) (list_ascii_of_string s))
  | PDict d => Ok (map (fun kv => PStr (fst kv)) d)
  | _ => Raise ("'" ++ type_name v ++ "' object is not iterable")
  end.

(** The text of a number in base ten. *)
Definition decimal (n : nat) : string :=
  NilEmpty.string_of_uint (Nat.to_uint n).

(** The check [str.join] makes on its items, from item [i] on. *)
Fixpoint join_items (i : nat) (parts : list pyval) : Res (list string) :=
  match parts with
  | [] => Ok []
  | PStr s :: rest =>
      match join_items (S i) rest with
      | Ok items => Ok (s :: items)
      | Raise msg => Raise msg
      end
  | v :: _ =>
      Raise ("sequence item " ++ decimal i ++ ": expected str instance, "
             ++ type_name v ++ " found")
  end.

Definition newline : string := String (ascii_of_nat 10) EmptyString.

Definition res_bind (A B : Type) (r : Res A) (k : A -> Res B) : Res B :=
  match r with
  | Ok a => k a
  | Raise msg => Raise msg
  end.

Section Render.

Context {pixel : Type} {host : IngestNotes.Host pixel} {renderer : Renderer}.

(** [str(v)] as an f-string inserts it. *)
Definition py_str (v : pyval) : string :=
  match v with
  | PStr s => s
  | _ => str_other v
  end.

(** The front matter dictionary (lines 163-171). *)
Definition frontmatter (d : list (string * pyval)) (source_path : string)
    (stamp : nat) : pyval :=
  PDict [ ("date", PStr (strftime_date stamp));
          ("source", PStr (path_name source_path));
          ("tags", get_or "suggested_tags" (PList []) d);
          ("themes", get_or "themes" (PList []) d);
          ("key_concepts", get_or "key_concepts" (PList []) d);
          ("quality_rating", get_or "quality_rating" PNone d);
          ("course", PStr "PHIL402") ].

(** Lines 174-185. *)
Definition head_parts (d : list (string * pyval)) (source_path : string)
    (stamp : nat) : list pyval :=
  [ PStr "---";
    PStr (Py.strip (yaml_dump (frontmatter d source_path stamp)));
    PStr "---";
    PStr "";
    PStr ("# Notes from " ++ IngestNotes.path_stem source_path);
    PStr "";
    PStr "## Transcription";
    PStr "";
    get_or "transcription" (PStr "") d;
    PStr "" ].

(** Lines 187-196. *)
Definition insight_parts (d : list (string * pyval)) : Res (list pyval) :=
  let insights := get_or "questions_or_insights" (PList []) d in
  if truthy insights then
    res_bind (iterate insights) (fun items =>
      Ok ([PStr "## Questions & Insights"; PStr ""]
          ++ map (fun insight => PStr ("- " ++ py_str insight)) items
          ++ [PStr ""])%list)
  else Ok [].

(** Lines 198-206. *)
Definition notes_parts (d : list (string * pyval)) : list pyval :=
  let notes := get_or "notes" (PStr "") d in
  if truthy notes then [PStr "## Analysis Notes"; PStr ""; notes; PStr ""]
  else [].

(** Lines 208-218. *)
Definition footer_parts (d : list (string * pyval)) : Res (list pyval) :=
  let metadata := get_or "metadata" (PDict []) d in
  res_bind (attr_get metadata "model" (PStr "N/A")) (fun model =>
  res_bind (attr_get metadata "timestamp" (PStr "N/A")) (fun timestamp =>
  res_bind (attr_get metadata "tokens_used" (PDict [])) (fun tokens_used =>
  res_bind (attr_get tokens_used "total" (PStr "N/A")) (fun total =>
  res_bind (attr_get metadata "estimated_cost" (PInt 0)) (fun estimated =>
  res_bind (format_4f estimated) (fun cost =>
    Ok [ PStr "---";
         PStr "";
         PStr "**Processing Info:**";
         PStr ("- Model: " ++ py_str model);
         PStr ("- Timestamp: " ++ py_str timestamp);
         PStr ("- Tokens: " ++ py_str total);
         PStr ("- Cost: $" ++ cost) ])))))).

(** [_create_markdown] (lines 151-220). *)
Definition create_markdown (ocr_result : pyval) (source_path : string)
    (stamp : nat) : Res string :=
  match ocr_result with
  | PDict d =>
      let md_parts := head_parts d source_path stamp in
      res_bind (insight_parts d) (fun insights =>
      let md_parts := (md_parts ++ insights)%list in
      let md_parts := (md_parts ++ notes_parts d)%list in
      res_bind (footer_parts d) (fun footer =>
      let md_parts := (md_parts ++ footer)%list in
      res_bind (join_items 0 md_parts) (fun items =>
        Ok (PyText.join newline items))))
  | v => Raise ("'" ++ type_name v ++ "' object has no attribute 'get'")
  end.

(** The host with [_create_markdown] itself as its renderer. *)
Definition rendering_host : IngestNotes.Host pixel :=
  {| IngestNotes.path_stem := IngestNotes.path_stem;
     IngestNotes.strftime := IngestNotes.strftime;
     IngestNotes.mkdir_error := IngestNotes.mkdir_error;
     IngestNotes.write_error := IngestNotes.write_error;
     IngestNotes.imencode_jpg := IngestNotes.imencode_jpg;
     IngestNotes.mkstemp := IngestNotes.mkstemp;
     IngestNotes.create_markdown := create_markdown;
     IngestNotes.glob := IngestNotes.glob;
     IngestNotes.path_leb := IngestNotes.path_leb |}.

End Render.

End Markdown.

(** ** The constructors and the command line (ingest_notes.py, ocr_vision.py) *)

Module Cli.

Local Open Scope string_scope.

(** The parsed arguments of [main] (lines 298-336). *)
Record Args : Type := {
  input : string;
  output : string;
  pattern : string;
  no_preprocess : bool;
  no_save_images : bool;
  prompt : option string
}.

(** What [main] asks of the operating system: the API key in the
    environment after [load_dotenv], the tests on a path, and the reading
    of the prompt file. *)
Class Shell : Type := {
  getenv_api_key : option string;
  path_exists : string -> bool;
  is_file : string -> bool;
  is_dir : string -> bool;
  read_text : string -> Res string
}.

Definition reset_cost (w : World) : World :=
  {| clock := clock w; total_cost := 0%Q; files := files w |}.

(** [bool(s)] for an optional text. *)
Definition present (s : option string) : option string :=
  match s with
  | Some k => if String.eqb k "" then None else Some k
  | None => None
  end.

Section Main.

Context {pixel : Type} {cv2 : Preprocess.Cv2 pixel}
        {svc : OcrVision.VisionService} {host : IngestNotes.Host pixel}
        {shell : Shell}.

Local Open Scope eff_scope.

(** [VisionOCR.__init__] (ocr_vision.py, lines 22-36): yields the key in
    use; the running cost of the new client starts at 0. *)
Definition vision_ocr_init (api_key : option string) : Eff.M World string :=
  let key :=
    match present api_key with
    | Some k => Some k
    | None => getenv_api_key
    end in
  match present key with
  | Some k => Eff.modify reset_cost ;;; Eff.ret k
  | None =>
      Eff.raise
        "OpenAI API key required. Set OPENAI_API_KEY environment variable."
  end.

(** [Path.mkdir] with [exist_ok=True]. *)
Definition mkdir (path : string) : Eff.M World unit :=
  match IngestNotes.mkdir_error path with
  | Some msg => Eff.raise msg
  | None => Eff.ret tt
  end.

(** [NoteIngestionPipeline.__init__] (lines 38-66). *)
Definition pipeline_init (output_dir : string)
    (preprocess save_processed_images : bool)
    : Eff.M World IngestNotes.Pipeline :=
  mkdir output_dir ;;;
  let self :=
    {| IngestNotes.output_dir := output_dir;
       IngestNotes.preprocess_enabled := preprocess;
       IngestNotes.save_processed := save_processed_images |} in
  _ <- vision_ocr_init None ;;
  mkdir (IngestNotes.notes_dir self) ;;;
  (if save_processed_images
   then mkdir (IngestNotes.processed_images_dir self)
   else Eff.ret tt) ;;;
  Eff.ret self.

(** Lines 341-349: the custom prompt, when a readable file is named. *)
Definition load_prompt (args : Args) : Eff.M World (option string) :=
  match present (prompt args) with
  | Some prompt_path =>
      if path_exists prompt_path then
        text <- Eff.lift (read_text prompt_path) ;;
        Eff.ret (Some text)
      else Eff.ret None
  | None => Eff.ret None
  end.

(** [main] from the parsed arguments on (lines 338-376).  [Ok code] is
    [sys.exit(code)]; [Raise msg] is an exception nobody catches. *)
Definition main (args : Args) : Eff.M World nat :=
  custom_prompt <- load_prompt args ;;
  pipeline <- pipeline_init (output args) (negb (no_preprocess args))
                (negb (no_save_images args)) ;;
  let input_path := input args in
  if negb (path_exists input_path) then Eff.ret 1
  else if is_file input_path then
    result <- (fun w =>
      let (r, w') :=
        IngestNotes.process_single_image pipeline input_path custom_prompt w in
      (Ok r, w')) ;;
    Eff.ret (if success result then 0 else 1)
  else if is_dir input_path then
    rs <- IngestNotes.process_directory pipeline input_path (pattern args)
            custom_prompt ;;
    let successful := Numpy.count_if success rs in
    Eff.ret (if Nat.eqb successful (List.length rs) then 0 else 1)
  else Eff.ret 1.

(** The pipeline [main] builds from its arguments. *)
Definition pipeline_of (args : Args) : IngestNotes.Pipeline :=
  {| IngestNotes.output_dir := output args;
     IngestNotes.preprocess_enabled := negb (no_preprocess args);
     IngestNotes.save_processed := negb (no_save_images args) |}.

(** The conditions under which the construction of the pipeline goes
    through: an API key is in the environment and the output directories
    can be made. *)
Definition starts (args : Args) : Prop :=
  (exists key, present getenv_api_key = Some key)
  /\ IngestNotes.mkdir_error (output args) = None
  /\ IngestNotes.mkdir_error (IngestNotes.notes_dir (pipeline_of args)) = None
  /\ (no_save_images args = false ->
      IngestNotes.mkdir_error
        (IngestNotes.processed_images_dir (pipeline_of args)) = None).

End Main.

End Cli.

(** ** More concrete worlds *)

Module Samples.

Local Open Scope string_scope.

(** [Demo.page] after a quarter turn to the right. *)
Definition turned_page : Preprocess.Image nat := [[4; 1]; [5; 2]; [6; 3]].

(** A detector that finds the same two lines in every image and lists
    them in one order for images of two rows and in the other order for
    the rest. *)
Definition cv2_two_lines : Preprocess.Cv2 nat :=
  {| Preprocess.imread := fun _ => Some Demo.page;
     Preprocess.HoughLines := fun image =>
       Some (if Nat.eqb (List.length image) 2
             then [(10, 11 # 7); (25, 1 # 7)]
             else [(25, 1 # 7); (10, 11 # 7)])%Q;
     Preprocess.np_degrees := fun theta => (theta * (630 # 11))%Q;
     Preprocess.warpAffine := fun image _ => image;
     Preprocess.bilateralFilter := fun image => image;
     Preprocess.clahe_lab := fun image => image;
     Preprocess.float_str := Demo.show_angle |}.

(** A decoder that cannot read any file. *)
Definition cv2_unreadable : Preprocess.Cv2 nat :=
  {| Preprocess.imread := fun _ => None;
     Preprocess.HoughLines := fun _ => None;
     Preprocess.np_degrees := fun theta => theta;
     Preprocess.warpAffine := fun image _ => image;
     Preprocess.bilateralFilter := fun image => image;
     Preprocess.clahe_lab := fun image => image;
     Preprocess.float_str := Demo.show_angle |}.

Definition quote : string := String (ascii_of_nat 34) EmptyString.

(** A service that answers every image with [body], which the JSON
    decoder turns into [decoded] ([None]: not JSON), and reports 1200
    prompt and 300 completion tokens. *)
Definition answer (body : string) : OcrVision.ChatCompletion :=
  {| OcrVision.content := Some body;
     OcrVision.usage :=
       {| OcrVision.prompt_tokens := 1200;
          OcrVision.completion_tokens := 300;
          OcrVision.total_tokens := 1500 |} |}.

Definition svc_answering (body : string) (decoded : option pyval)
    : OcrVision.VisionService :=
  {| OcrVision.model := "gpt-4o";
     OcrVision.read_base64 := fun _ => Ok "aGVsbG8=";
     OcrVision.chat_completions_create := fun _ _ _ => Ok (answer body);
     OcrVision.json_loads := fun s =>
       if String.eqb s (OcrVision.json_str_of body) then decoded else None;
     OcrVision.default_prompt := "Transcribe the page.";
     OcrVision.isoformat := fun _ => "2024-11-02T10:00:00";
     OcrVision.round4 := Demo.four_decimals |}.

(** A service whose images cannot be read. *)
Definition svc_unreadable : OcrVision.VisionService :=
  {| OcrVision.model := "gpt-4o";
     OcrVision.read_base64 := fun _ =>
       Raise "[Errno 2] No such file or directory";
     OcrVision.chat_completions_create := fun _ _ _ => Ok (answer "");
     OcrVision.json_loads := fun _ => None;
     OcrVision.default_prompt := "Transcribe the page.";
     OcrVision.isoformat := fun _ => "2024-11-02T10:00:00";
     OcrVision.round4 := Demo.four_decimals |}.

(** An answer in a fence tagged [json]. *)
Definition hello_json : string :=
  "{" ++ quote ++ "transcription" ++ quote ++ ": "
  ++ quote ++ "Hello" ++ quote ++ "}".

Definition hello_record : list (string * pyval) :=
  [("transcription", PStr "Hello"); ("quality_rating", PInt 4)].

Definition fenced_hello : string :=
  "Here it is:" ++ Markdown.newline ++ "```json" ++ Markdown.newline
  ++ hello_json ++ Markdown.newline ++ "```" ++ Markdown.newline.

Definition svc_fenced : OcrVision.VisionService :=
  svc_answering fenced_hello (Some (PDict hello_record)).

(** An answer that is a JSON list. *)
Definition svc_list : OcrVision.VisionService :=
  svc_answering "[1, 2]" (Some (PList [PInt 1; PInt 2])).

(** An answer whose transcription is a list of lines. *)
Definition lines_record : list (string * pyval) :=
  [("transcription", PList [PStr "first line"; PStr "second line"])].

Definition svc_lines : OcrVision.VisionService :=
  svc_answering "{...}" (Some (PDict lines_record)).

(** [Demo.host] with two matching files in every directory. *)
Definition host_two_files : IngestNotes.Host nat :=
  {| IngestNotes.path_stem := fun _ => "page1";
     IngestNotes.strftime := fun _ => "20241102_100000";
     IngestNotes.mkdir_error := fun _ => None;
     IngestNotes.write_error := fun p =>
       if Py.contains "locked" p then Some "[Errno 13] Permission denied"
       else None;
     IngestNotes.imencode_jpg := fun _ => "jpeg";
     IngestNotes.mkstemp := fun _ => Ok "/tmp/tmpa1b2.jpg";
     IngestNotes.create_markdown := fun _ _ _ => Ok "# Notes from page1";
     IngestNotes.glob := fun _ _ => ["inbox/b.jpg"; "inbox/a.jpg"];
     IngestNotes.path_leb := String.leb |}.

Definition renderer : Markdown.Renderer :=
  {| Markdown.yaml_dump := fun _ => "course: PHIL402" ++ Markdown.newline;
     Markdown.strftime_date := fun _ => "2024-11-02";
     Markdown.path_name := fun p => p;
     Markdown.str_other := fun v =>
       match v with
       | PInt n => Markdown.decimal (Z.to_nat n)
       | _ => "None"
       end;
     Markdown.format_4f := fun v =>
       match v with
       | PFloat _ | PInt _ => Ok "0.0060"
       | _ => Raise "Unknown format code 'f'"
       end |}.

(** A record as the client returns it for a structured answer. *)
Definition typed_record : list (string * pyval) :=
  [ ("transcription", PStr "Hello");
    ("questions_or_insights", PList [PStr "What is being?"]);
    ("notes", PStr "");
    ("metadata",
     PDict [ ("model", PStr "gpt-4o");
             ("tokens_used", PDict [("total", PInt 1500)]);
             ("estimated_cost", PFloat (6 # 1000)) ]) ].

(** A run on an image that cannot be decoded. *)
Definition undecodable_run : ProcessingResult * World :=
  IngestNotes.process_single_image (cv2 := cv2_unreadable)
    (svc := Demo.svc_plain) (host := Demo.host) Demo.pipeline_saving
    "inbox/page1.jpg" None Demo.world0.

Definition shell_with_key : Cli.Shell :=
  {| Cli.getenv_api_key := Some "sk-test";
     Cli.path_exists := fun _ => true;
     Cli.is_file := fun p => Py.contains ".jpg" p;
     Cli.is_dir := fun p => negb (Py.contains ".jpg" p);
     Cli.read_text := fun _ => Ok "Transcribe the page." |}.

Definition shell_without_key : Cli.Shell :=
  {| Cli.getenv_api_key := None;
     Cli.path_exists := fun _ => true;
     Cli.is_file := fun p => Py.contains ".jpg" p;
     Cli.is_dir := fun p => negb (Py.contains ".jpg" p);
     Cli.read_text := fun _ => Ok "Transcribe the page." |}.

Definition args_directory : Cli.Args :=
  {| Cli.input := "inbox";
     Cli.output := "data";
     Cli.pattern := "*.jpg";
     Cli.no_preprocess := false;
     Cli.no_save_images := false;
     Cli.prompt := None |}.

(** The same arguments with a prompt file named. *)
Definition args_prompted : Cli.Args :=
  {| Cli.input := "inbox";
     Cli.output := "data";
     Cli.pattern := "*.jpg";
     Cli.no_preprocess := false;
     Cli.no_save_images := false;
     Cli.prompt := Some "prompts/seminar.txt" |}.

End Samples.

(** * Properties *)

(** ** Quarter turns *)

Module GridFacts.

Import Preprocess.

Section Lemmas.

Variable pixel : Type.

Implicit Types (row : list pixel) (image cols : Image pixel).

Lemma zip_cons_length row cols :
  List.length (zip_cons row cols)
  = Nat.min (List.length row) (List.length cols).
Proof.
  revert cols; induction row as [|x row IH]; intros [|c cols]; simpl; auto.
Qed.

Lemma transpose_length w image :
  Forall (fun row => List.length row = w) image ->
  List.length (transpose w image) = w.
Proof.
  induction 1 as [|row image Hrow _ IH]; simpl.
  - apply repeat_length.
  - rewrite zip_cons_length, IH, Hrow. apply Nat.min_id.
Qed.

Lemma zip_cons_rows h row cols :
  Forall (fun c => List.length c = h) cols ->
  Forall (fun c => List.length c = S h) (zip_cons row cols).
Proof.
  intros H; revert row; induction H as [|c cols Hc _ IH]; intros [|x row];
    simpl; constructor; auto.
  simpl; congruence.
Qed.

Lemma transpose_rows h w image :
  rectangular h w image ->
  Forall (fun col => List.length col = h) (transpose w image).
Proof.
  intros [Hlen _]; subst h.
  induction image as [|row image IH]; simpl.
  - apply Forall_forall; intros c Hc.
    apply repeat_spec in Hc; subst; reflexivity.
  - apply zip_cons_rows, IH.
Qed.

Lemma transpose_rectangular h w image :
  rectangular h w image -> rectangular w h (transpose w image).
Proof.
  intros H; split.
  - apply transpose_length, H.
  - eapply transpose_rows, H.
Qed.

Lemma transpose_blank_columns w :
  transpose 0 (repeat (@nil pixel) w) = [].
Proof. destruct w; reflexivity. Qed.

Lemma transpose_zip_cons h row cols :
  List.length row = List.length cols ->
  transpose (S h) (zip_cons row cols) = row :: transpose h cols.
Proof.
  revert cols; induction row as [|x row IH]; intros [|c cols] Hlen;
    simpl in *; try discriminate; auto.
  rewrite IH by lia. reflexivity.
Qed.

(** Taking the columns of the columns gives the rows back. *)
Lemma transpose_involutive h w image :
  rectangular h w image -> transpose h (transpose w image) = image.
Proof.
  intros [Hlen Hrows]; subst h.
  induction Hrows as [|row image Hrow Hrows IH]; simpl.
  - apply transpose_blank_columns.
  - rewrite transpose_zip_cons, IH; auto.
    rewrite transpose_length; auto.
Qed.

Lemma zip_cons_app row1 row2 cols1 cols2 :
  List.length row1 = List.length cols1 ->
  zip_cons (row1 ++ row2) (cols1 ++ cols2)
  = zip_cons row1 cols1 ++ zip_cons row2 cols2.
Proof.
  revert cols1; induction row1 as [|x row1 IH]; intros [|c cols1] Hlen;
    simpl in *; try discriminate; auto.
  rewrite IH by lia. reflexivity.
Qed.

Lemma zip_cons_rev row cols :
  List.length row = List.length cols ->
  zip_cons (rev row) (rev cols) = rev (zip_cons row cols).
Proof.
  revert cols; induction row as [|x row IH]; intros [|c cols] Hlen;
    simpl in *; try discriminate; auto.
  rewrite zip_cons_app by (rewrite !length_rev; lia).
  rewrite IH by lia. reflexivity.
Qed.

(** Mirroring every row reverses the order of the columns. *)
Lemma transpose_map_rev w image :
  Forall (fun row => List.length row = w) image ->
  transpose w (map (@rev pixel) image) = rev (transpose w image).
Proof.
  induction 1 as [|row image Hrow Hrows IH]; simpl.
  - symmetry; apply rev_repeat.
  - rewrite IH. apply zip_cons_rev.
    rewrite transpose_length; auto.
Qed.

Lemma hd_length h w image :
  0 < h -> rectangular h w image -> List.length (hd [] image) = w.
Proof.
  intros Hh [Hlen Hrows]. destruct Hrows; simpl in *; [lia | assumption].
Qed.

Lemma rotate_cw_rectangular h w image :
  0 < h -> rectangular h w image ->
  rectangular w h (cv2_rotate image ROTATE_90_CLOCKWISE).
Proof.
  intros Hh Hrect. unfold cv2_rotate.
  rewrite (hd_length Hh Hrect).
  destruct (transpose_rectangular Hrect) as [Hlen Hrows].
  split.
  - rewrite length_map; exact Hlen.
  - apply Forall_map. eapply Forall_impl; [|exact Hrows].
    intros c Hc; simpl. rewrite length_rev; exact Hc.
Qed.

(** Two clockwise quarter turns are a half turn. *)
Lemma rotate_cw_twice h w image :
  0 < h -> 0 < w -> rectangular h w image ->
  cv2_rotate (cv2_rotate image ROTATE_90_CLOCKWISE) ROTATE_90_CLOCKWISE
  = cv2_rotate image ROTATE_180.
Proof.
  intros Hh Hw Hrect.
  pose proof (rotate_cw_rectangular Hh Hrect) as Hrot.
  unfold cv2_rotate at 1.
  rewrite (hd_length Hw Hrot).
  unfold cv2_rotate. rewrite (hd_length Hh Hrect).
  rewrite transpose_map_rev by (eapply transpose_rows; exact Hrect).
  rewrite (transpose_involutive Hrect). reflexivity.
Qed.

Lemma rotate_180_rectangular h w image :
  rectangular h w image -> rectangular h w (cv2_rotate image ROTATE_180).
Proof.
  intros [Hlen Hrows]; unfold cv2_rotate; split.
  - rewrite length_map, length_rev; exact Hlen.
  - apply Forall_map, Forall_rev. eapply Forall_impl; [|exact Hrows].
    intros c Hc; simpl. rewrite length_rev; exact Hc.
Qed.

Lemma rotate_180_twice image :
  cv2_rotate (cv2_rotate image ROTATE_180) ROTATE_180 = image.
Proof.
  unfold cv2_rotate.
  rewrite <- map_rev, rev_involutive, map_map.
  erewrite map_ext; [apply map_id|]. intros; apply rev_involutive.
Qed.

(** Four clockwise quarter turns give the image back. *)
Lemma rotate_cw_four_times image :
  decoded image ->
  cv2_rotate
    (cv2_rotate
       (cv2_rotate (cv2_rotate image ROTATE_90_CLOCKWISE)
          ROTATE_90_CLOCKWISE)
       ROTATE_90_CLOCKWISE)
    ROTATE_90_CLOCKWISE
  = image.
Proof.
  intros (h & w & Hh & Hw & Hrect).
  rewrite (rotate_cw_twice Hh Hw Hrect).
  rewrite (rotate_cw_twice Hh Hw (rotate_180_rectangular Hrect)).
  apply rotate_180_twice.
Qed.

End Lemmas.

End GridFacts.

(** ** The vote of [detect_orientation] *)

Module VoteFacts.

Import Numpy.

Lemma count_if_none (A : Type) (f : A -> bool) (l : list A) :
  Forall (fun x => f x = false) l -> count_if f l = 0.
Proof.
  unfold count_if; induction 1 as [|x l Hx _ IH]; simpl; auto.
  rewrite Hx; exact IH.
Qed.

(** The invariant of the scan of [np.argmax]: [best] is the value at
    [best_i], nothing read so far exceeds it, and everything before
    [best_i] is strictly below it. *)
Lemma argmax_from_spec (l seen : list nat) (best_i best : nat) :
  best_i < List.length seen ->
  nth best_i seen 0 = best ->
  (forall j, j < List.length seen -> nth j seen 0 <= best) ->
  (forall j, j < best_i -> nth j seen 0 < best) ->
  let r := argmax_from l (List.length seen) best_i best in
  r < List.length (seen ++ l)
  /\ (forall j, j < List.length (seen ++ l) ->
                nth j (seen ++ l) 0 <= nth r (seen ++ l) 0)
  /\ (forall j, j < r -> nth j (seen ++ l) 0 < nth r (seen ++ l) 0).
Proof.
  revert seen best_i best.
  induction l as [|x l IH]; intros seen best_i best Hi Hbest Hmax Hfirst; simpl.
  - rewrite app_nil_r. rewrite Hbest. auto.
  - assert (Hlen : List.length (seen ++ [x]) = S (List.length seen))
      by (rewrite length_app; simpl; lia).
    change (seen ++ x :: l) with (seen ++ [x] ++ l).
    rewrite app_assoc.
    destruct (Nat.ltb_spec best x) as [Hlt | Hge].
    + specialize (IH (seen ++ [x]) (List.length seen) x).
      rewrite Hlen in IH. apply IH.
      * lia.
      * rewrite app_nth2, Nat.sub_diag by lia. reflexivity.
      * intros j Hj. destruct (Nat.eq_dec j (List.length seen)) as [-> | Hne].
        -- rewrite app_nth2, Nat.sub_diag by lia. simpl; lia.
        -- rewrite app_nth1 by lia. specialize (Hmax j). lia.
      * intros j Hj. rewrite app_nth1 by lia. specialize (Hmax j). lia.
    + specialize (IH (seen ++ [x]) best_i best).
      rewrite Hlen in IH. apply IH.
      * lia.
      * rewrite app_nth1 by lia. exact Hbest.
      * intros j Hj. destruct (Nat.eq_dec j (List.length seen)) as [-> | Hne].
        -- rewrite app_nth2, Nat.sub_diag by lia. simpl; lia.
        -- rewrite app_nth1 by lia. apply Hmax; lia.
      * intros j Hj. rewrite app_nth1 by lia. apply Hfirst; lia.
Qed.

(** [np.argmax] returns the first index that holds the maximum. *)
Lemma argmax_spec (l : list nat) :
  l <> [] ->
  argmax l < List.length l
  /\ (forall j, j < List.length l -> nth j l 0 <= nth (argmax l) l 0)
  /\ (forall j, j < argmax l -> nth j l 0 < nth (argmax l) l 0).
Proof.
  destruct l as [|x l]; [congruence | intros _].
  unfold argmax.
  apply (@argmax_from_spec l [x] 0 x); simpl.
  - lia.
  - reflexivity.
  - intros [|j] Hj; [lia | lia].
  - intros j Hj; lia.
Qed.

(** The five counts of the histogram over [Preprocess.bins]. *)
Lemma histogram_bins (angles : list Q) :
  histogram angles Preprocess.bins
  = [ count_if (in_bin 0 45 false) angles;
      count_if (in_bin 45 135 false) angles;
      count_if (in_bin 135 225 false) angles;
      count_if (in_bin 225 315 false) angles;
      count_if (in_bin 315 360 true) angles ].
Proof. reflexivity. Qed.

Lemma angle_of_bin_cases (b : nat) :
  b < 5 ->
  (b = 0 \/ b = 4) /\ Preprocess.angle_of_bin b = 0%Q
  \/ b = 1 /\ Preprocess.angle_of_bin b = 90%Q
  \/ b = 2 /\ Preprocess.angle_of_bin b = 180%Q
  \/ b = 3 /\ Preprocess.angle_of_bin b = 270%Q.
Proof.
  intros Hb.
  destruct b as [|[|[|[|[|b]]]]]; try lia; unfold Preprocess.angle_of_bin;
    simpl; auto 10.
Qed.

(** No angle of at most 180 degrees falls at or above 225. *)
Lemma above_half_turn_empty (lo hi : Q) (last : bool) (angles : list Q) :
  (225 <= lo)%Q ->
  Forall (fun a => (0 <= a)%Q /\ (a <= 180)%Q) angles ->
  count_if (in_bin lo hi last) angles = 0.
Proof.
  intros Hlo Hall. apply count_if_none.
  eapply Forall_impl; [|exact Hall].
  intros a [_ Ha]. unfold in_bin.
  destruct (Qle_bool lo a) eqn:Hle; [|reflexivity].
  apply Qle_bool_iff in Hle.
  exfalso. assert (H : (225 <= 180)%Q).
  { eapply Qle_trans; [exact Hlo|]. eapply Qle_trans; eassumption. }
  revert H. unfold Qle; simpl; lia.
Qed.

Lemma count_if_agree (A : Type) (f g : A -> bool) (l : list A) :
  Forall (fun x => f x = g x) l -> count_if f l = count_if g l.
Proof.
  unfold count_if; induction 1 as [|x l Hx _ IH]; simpl; auto.
  rewrite Hx. destruct (g x); simpl; congruence.
Qed.

(** Between 0 and 180 degrees the bin from 315 to 360 is empty, so the
    four bins of [SpecWords] hold the first four counts of the
    histogram. *)
Lemma merged_counts_half_turn (angles : list Q) (k : nat) :
  Forall (fun a => (0 <= a)%Q /\ (a <= 180)%Q) angles ->
  k < 4 ->
  SpecWords.merged_count k angles = nth k (histogram angles Preprocess.bins) 0.
Proof.
  intros Hall Hk. rewrite histogram_bins. unfold SpecWords.merged_count.
  destruct k as [|[|[|[|k]]]]; try lia; try reflexivity.
  apply count_if_agree. eapply Forall_impl; [|exact Hall].
  intros a [_ Ha]. cbn [SpecWords.in_merged_bin].
  replace (in_bin 315 360 true a) with false; [apply orb_false_r|].
  symmetry. unfold in_bin.
  destruct (Qle_bool 315 a) eqn:Hle; [|reflexivity].
  apply Qle_bool_iff in Hle.
  exfalso. assert (H : (315 <= 180)%Q) by (eapply Qle_trans; eassumption).
  revert H. unfold Qle; simpl; lia.
Qed.

End VoteFacts.

(** ** The normaliser *)

Module PreprocessProps.

Import Preprocess SpecWords.

Section Normaliser.

Context {pixel : Type} {cv2 : Cv2 pixel}.

(** What [process_image] returns once the file has been decoded: the
    three stages in their fixed order, then the final size. *)
Lemma process_image_decoded image_path image auto_orient enhance denoise :
  imread image_path = Some image ->
  exists out meta,
    process_image image_path auto_orient enhance denoise = Ok (out, meta)
    /\ rotation_applied meta
       = (if (auto_orient && negb (Qeq_bool (detect_orientation image) 0))%bool
          then detect_orientation image else 0%Q)
    /\ steps meta
       = (if (auto_orient && negb (Qeq_bool (detect_orientation image) 0))%bool
          then [rotated_step float_str (detect_orientation image)] else [])
         ++ (if denoise then ["denoised"%string] else [])
         ++ (if enhance then ["contrast_enhanced"%string] else []).
Proof.
  intros Hread. unfold process_image. rewrite Hread.
  unfold enhance_stage, denoise_stage, orient_stage.
  destruct auto_orient, denoise, enhance;
    destruct (Qeq_bool (detect_orientation image) 0);
    simpl; eexists; eexists; (split; [reflexivity | split; reflexivity]).
Qed.

(** C5. When the line detector finds no line in an image (OpenCV
    reports none, or an empty set), [detect_orientation] returns 0
    degrees and the orientation stage of [process_image] is a no-op: the
    image is not rotated, the trace keeps [rotation_applied = 0] and
    holds no rotation step. *)
Theorem zero_lines_no_rotation (image : Image pixel) :
  HoughLines image = None \/ HoughLines image = Some [] ->
  detect_orientation image = 0%Q
  /\ (forall auto_orient meta,
         orient_stage auto_orient (image, meta) = (image, meta))
  /\ (forall image_path auto_orient enhance denoise,
         imread image_path = Some image ->
         exists out meta,
           process_image image_path auto_orient enhance denoise
           = Ok (out, meta)
           /\ rotation_applied meta = 0%Q
           /\ steps meta
              = (if denoise then ["denoised"%string] else [])
                ++ (if enhance then ["contrast_enhanced"%string] else [])).
Proof.
  intros Hlines.
  assert (Hzero : detect_orientation image = 0%Q).
  { unfold detect_orientation. destruct Hlines as [-> | ->]; reflexivity. }
  split; [exact Hzero | split].
  - intros auto_orient meta. unfold orient_stage. rewrite Hzero.
    destruct auto_orient; reflexivity.
  - intros image_path auto_orient enhance denoise Hread.
    destruct (@process_image_decoded image_path image auto_orient enhance denoise
                Hread)
      as (out & meta & Hrun & Hrot & Hsteps).
    exists out, meta. rewrite Hzero in Hrot, Hsteps.
    rewrite andb_false_r in Hrot, Hsteps. auto.
Qed.

(** C6. The angles of the detected lines are counted in five bins,
    [0,45), [45,135), [135,225), [225,315) and [315,360], of which the
    first and the last are the two halves of the bin of 90 degrees
    around 0 and both give 0.  [detect_orientation] returns the angle
    of the first bin that holds the highest count: 0 for the first and
    the last bin, 90 for the second, 180 for the third, 270 for the
    fourth.  When every angle lies between 0 and 180 degrees, as the
    angles of the lines that [cv2.HoughLines] reports do, the returned
    angle is also the angle of a bin that no other outvotes once the
    two bins around 0 are counted as one. *)
Theorem detect_orientation_first_fullest_bin
    (image : Image pixel) (lines : list (Q * Q)) :
  HoughLines image = Some lines ->
  let hist := Numpy.histogram (line_angles lines) bins in
  hist = [ Numpy.count_if (Numpy.in_bin 0 45 false) (line_angles lines);
           Numpy.count_if (Numpy.in_bin 45 135 false) (line_angles lines);
           Numpy.count_if (Numpy.in_bin 135 225 false) (line_angles lines);
           Numpy.count_if (Numpy.in_bin 225 315 false) (line_angles lines);
           Numpy.count_if (Numpy.in_bin 315 360 true) (line_angles lines) ]
  /\ exists b,
       b < 5
       /\ (forall j, j < 5 -> nth j hist 0 <= nth b hist 0)
       /\ (forall j, j < b -> nth j hist 0 < nth b hist 0)
       /\ detect_orientation image = angle_of_bin b
       /\ ((b = 0 \/ b = 4) /\ angle_of_bin b = 0%Q
           \/ b = 1 /\ angle_of_bin b = 90%Q
           \/ b = 2 /\ angle_of_bin b = 180%Q
           \/ b = 3 /\ angle_of_bin b = 270%Q)
       /\ (Forall (fun a => (0 <= a)%Q /\ (a <= 180)%Q) (line_angles lines) ->
           dominant_of_merged (line_angles lines) (detect_orientation image)
           = true).
Proof.
  intros Hlines hist.
  split; [apply VoteFacts.histogram_bins|].
  assert (Hne : hist <> []).
  { unfold hist. rewrite VoteFacts.histogram_bins. discriminate. }
  assert (Hlen : List.length hist = 5).
  { unfold hist. rewrite VoteFacts.histogram_bins. reflexivity. }
  destruct (VoteFacts.argmax_spec Hne) as (Hlt & Hmax & Hfirst).
  rewrite Hlen in Hlt, Hmax.
  assert (Hdet : detect_orientation image = angle_of_bin (Numpy.argmax hist)).
  { unfold detect_orientation. rewrite Hlines. reflexivity. }
  exists (Numpy.argmax hist).
  split; [exact Hlt|]. split; [exact Hmax|]. split; [exact Hfirst|].
  split; [exact Hdet|].
  split; [apply VoteFacts.angle_of_bin_cases; exact Hlt|].
  intros Hrange. rewrite Hdet.
  set (b := Numpy.argmax hist) in *.
  assert (H3 : nth 3 hist 0 = 0).
  { unfold hist. rewrite VoteFacts.histogram_bins. simpl.
    apply VoteFacts.above_half_turn_empty; [|exact Hrange].
    unfold Qle; simpl; lia. }
  assert (H4 : nth 4 hist 0 = 0).
  { unfold hist. rewrite VoteFacts.histogram_bins. simpl.
    apply VoteFacts.above_half_turn_empty; [|exact Hrange].
    unfold Qle; simpl; lia. }
  assert (Hb : b < 3).
  { destruct (Nat.lt_ge_cases b 3) as [Hb | Hb]; [exact Hb|].
    assert (Hzero : nth b hist 0 = 0).
    { destruct (Nat.eq_dec b 3) as [-> | Hne3]; [exact H3|].
      replace b with 4 by lia. exact H4. }
    specialize (Hfirst 0). lia. }
  unfold dominant_of_merged. apply existsb_exists.
  exists b. split; [simpl; lia|].
  apply andb_true_intro. split.
  - apply forallb_forall. intros j Hj. apply Nat.leb_le.
    assert (Hj4 : j < 4) by (simpl in Hj; lia).
    rewrite !(@VoteFacts.merged_counts_half_turn (line_angles lines))
      by (assumption || lia).
    apply Hmax. lia.
  - destruct b as [|[|[|b]]]; try lia; reflexivity.
Qed.

(** C10. When every detected line has its angle between 0 and 180
    degrees, the bins [225,315) and [315,360] receive no vote and
    [detect_orientation] returns 0, 90 or 180, never 270. *)
Theorem half_turn_range_never_270
    (image : Image pixel) (lines : list (Q * Q)) :
  HoughLines image = Some lines ->
  lines <> [] ->
  Forall (fun a => (0 <= a)%Q /\ (a <= 180)%Q) (line_angles lines) ->
  nth 3 (Numpy.histogram (line_angles lines) bins) 0 = 0
  /\ nth 4 (Numpy.histogram (line_angles lines) bins) 0 = 0
  /\ (detect_orientation image = 0%Q
      \/ detect_orientation image = 90%Q
      \/ detect_orientation image = 180%Q)
  /\ ~ (detect_orientation image == 270)%Q.
Proof.
  intros Hlines _ Hrange.
  set (hist := Numpy.histogram (line_angles lines) bins).
  pose proof (VoteFacts.histogram_bins (line_angles lines)) as Hhist.
  fold hist in Hhist.
  assert (H3 : nth 3 hist 0 = 0).
  { rewrite Hhist. simpl.
    apply VoteFacts.above_half_turn_empty; [|exact Hrange].
    unfold Qle; simpl; lia. }
  assert (H4 : nth 4 hist 0 = 0).
  { rewrite Hhist. simpl.
    apply VoteFacts.above_half_turn_empty; [|exact Hrange].
    unfold Qle; simpl; lia. }
  assert (Hne : hist <> []) by (rewrite Hhist; discriminate).
  assert (Hlen : List.length hist = 5) by (rewrite Hhist; reflexivity).
  destruct (VoteFacts.argmax_spec Hne) as (Hlt & _ & Hfirst).
  rewrite Hlen in Hlt.
  assert (Hdet : detect_orientation image
                 = angle_of_bin (Numpy.argmax hist)).
  { unfold detect_orientation. rewrite Hlines. reflexivity. }
  assert (Hlow : Numpy.argmax hist < 3).
  { destruct (Nat.lt_ge_cases (Numpy.argmax hist) 3) as [|Hge];
      [assumption | exfalso].
    assert (Hz : nth (Numpy.argmax hist) hist 0 = 0).
    { assert (Hb : Numpy.argmax hist = 3 \/ Numpy.argmax hist = 4) by lia.
      destruct Hb as [-> | ->]; assumption. }
    specialize (Hfirst 0). rewrite Hz in Hfirst. lia. }
  assert (Hthree : detect_orientation image = 0%Q
                   \/ detect_orientation image = 90%Q
                   \/ detect_orientation image = 180%Q).
  { rewrite Hdet.
    destruct (VoteFacts.angle_of_bin_cases Hlt)
      as [[_ H] | [[_ H] | [[_ H] | [Hb3 _]]]]; auto; lia. }
  repeat split; auto.
  destruct Hthree as [-> | [-> | ->]]; intros H; revert H;
    unfold Qeq; simpl; lia.
Qed.

(** C7. Rotating a decoded image by 90 degrees four times in a row
    gives back the image, pixel for pixel and with its height and
    width; one quarter turn swaps height and width. *)
Theorem four_quarter_turns_identity (image : Image pixel) :
  decoded image ->
  rotate_image
    (rotate_image (rotate_image (rotate_image image 90) 90) 90) 90
  = image
  /\ shape
       (rotate_image
          (rotate_image (rotate_image (rotate_image image 90) 90) 90) 90)
     = shape image
  /\ shape (rotate_image image 90)
     = (snd (shape image), fst (shape image)).
Proof.
  intros Hdec.
  assert (Hrot : forall img,
             rotate_image img 90 = cv2_rotate img ROTATE_90_CLOCKWISE)
    by reflexivity.
  rewrite !Hrot.
  rewrite (GridFacts.rotate_cw_four_times Hdec).
  split; [reflexivity | split; [reflexivity|]].
  destruct Hdec as (h & w & Hh & Hw & Hrect).
  pose proof (GridFacts.rotate_cw_rectangular Hh Hrect) as Hturned.
  unfold shape.
  rewrite (GridFacts.hd_length Hw Hturned), (GridFacts.hd_length Hh Hrect).
  destruct Hturned as [-> _], Hrect as [-> _]. reflexivity.
Qed.

(** C8. Whatever the three flags are, the steps of the trace of
    [process_image] are a subsequence of rotation, [denoised],
    [contrast_enhanced] in that order: a stage is left out when its flag
    is off, the rotation also when the detected angle is 0, and no
    stage changes place. *)
Theorem steps_in_fixed_order
    (image_path : string) (image : Image pixel)
    (auto_orient enhance denoise : bool) :
  imread image_path = Some image ->
  exists out meta,
    process_image image_path auto_orient enhance denoise = Ok (out, meta)
    /\ subsequence (steps meta)
         [ rotated_step float_str (detect_orientation image);
           "denoised"%string; "contrast_enhanced"%string ]
    /\ steps meta
       = (if (auto_orient && negb (Qeq_bool (detect_orientation image) 0))%bool
          then [rotated_step float_str (detect_orientation image)] else [])
         ++ (if denoise then ["denoised"%string] else [])
         ++ (if enhance then ["contrast_enhanced"%string] else []).
Proof.
  intros Hread.
  destruct (@process_image_decoded image_path image auto_orient enhance denoise
                Hread)
    as (out & meta & Hrun & _ & Hsteps).
  exists out, meta. split; [exact Hrun | split; [|exact Hsteps]].
  rewrite Hsteps.
  destruct (auto_orient && negb (Qeq_bool (detect_orientation image) 0))%bool,
    denoise, enhance; simpl;
    repeat (apply subseq_keep || apply subseq_skip || apply subseq_nil).
Qed.

End Normaliser.

End PreprocessProps.

(** ** The extraction client *)

Module OcrVisionProps.

Import OcrVision Ledger.

Lemma dict_get_set_same (k : string) (v : pyval) (d : list (string * pyval)) :
  Py.dict_get k (Py.dict_set k v d) = Some v.
Proof.
  induction d as [|[k' v'] d IH]; simpl.
  - rewrite String.eqb_refl; reflexivity.
  - destruct (String.eqb k k') eqn:E; simpl.
    + rewrite String.eqb_refl; reflexivity.
    + rewrite E; exact IH.
Qed.

Lemma dict_get_set_other (k k' : string) (v : pyval)
    (d : list (string * pyval)) :
  String.eqb k k' = false ->
  Py.dict_get k (Py.dict_set k' v d) = Py.dict_get k d.
Proof.
  intros Hne. induction d as [|[k0 v0] d IH]; simpl.
  - rewrite Hne; reflexivity.
  - destruct (String.eqb k' k0) eqn:E; simpl.
    + apply String.eqb_eq in E; subst k0. rewrite Hne; reflexivity.
    + destruct (String.eqb k k0); [reflexivity | exact IH].
Qed.

Lemma call_cost_nonneg (u : Usage) :
  (0 <= prompt_tokens u)%Z -> (0 <= completion_tokens u)%Z ->
  (0 <= call_cost u)%Q.
Proof.
  intros Hp Hc. unfold call_cost.
  assert (Hshare : forall n : Z, (0 <= n)%Z -> (0 <= inject_Z n / 1000000)%Q).
  { intros n Hn. apply Qle_shift_div_l; [reflexivity|].
    rewrite Qmult_0_l. unfold Qle; simpl; lia. }
  apply (Qplus_le_compat 0 _ 0 _); apply Qmult_le_0_compat; auto;
    unfold Qle; simpl; lia.
Qed.

Section Client.

Context {svc : VisionService}.


(** C3. When the text handed to [json.loads] does not decode, the call
    raises no error: it returns a record whose transcription is the raw
    response body, whose four list fields are empty, whose quality
    rating is 3 and whose notes say that the response was not in the
    expected format. *)
Theorem unstructured_response_fallback
    image_path analysis_prompt base64_image response body w :
  read_base64 image_path = Ok base64_image ->
  chat_completions_create model (prompt_of analysis_prompt)
    ("data:image/jpeg;base64," ++ base64_image) = Ok response ->
  content response = Some body ->
  json_loads (json_str_of body) = None ->
  exists record w',
    extract_text_and_analyze image_path analysis_prompt w = (Ok record, w')
    /\ field "transcription" record = Some (PStr body)
    /\ field "key_concepts" record = Some (PList [])
    /\ field "themes" record = Some (PList [])
    /\ field "questions_or_insights" record = Some (PList [])
    /\ field "suggested_tags" record = Some (PList [])
    /\ field "quality_rating" record = Some (PInt 3)
    /\ field "notes" record
       = Some (PStr "Response was not in expected JSON format").
Proof.
  intros Hread Hchat Hbody Hjson.
  unfold extract_text_and_analyze, encode_image, Eff.bind, Eff.lift.
  rewrite Hread. fold (prompt_of analysis_prompt). rewrite Hchat, Hbody.
  simpl. unfold parse_content. rewrite Hjson. simpl.
  eexists; eexists; split; [reflexivity|].
  repeat split; reflexivity.
Qed.




End Client.

End OcrVisionProps.

(** ** The orchestrator *)

Module IngestNotesProps.

Import IngestNotes.

(** Unfolds the orchestrator down to the calls of its collaborators. *)
Ltac unfold_orchestrator :=
  cbv beta iota zeta delta
    [ process_single_image process_body preprocess_step
      save_processed_image cv2_imwrite write_text now
      Eff.try_except Eff.bind Eff.on_snd Eff.on_fst Eff.lift Eff.ret
      Eff.get Eff.raise Eff.modify fst snd ].

(** Splits on the outcome of every collaborator call left in the goal. *)
Ltac split_outcomes :=
  repeat match goal with
         | |- context [match ?x with _ => _ end] =>
             lazymatch x with
             | context [match _ with _ => _ end] => fail
             | _ => destruct x eqn:?; cbv beta iota zeta delta [fst snd]
             end
         end.

Section Orchestrator.

Context {pixel : Type} {cv2 : Preprocess.Cv2 pixel}
        {svc : OcrVision.VisionService} {host : Host pixel}.

Variable self : Pipeline.

(** The flag [success] is raised exactly when the extraction call has
    returned a record. *)
Lemma success_tracks_extraction image_path custom_prompt w :
  success (fst (process_single_image self image_path custom_prompt w)) = true
  <-> ocr (fst (process_single_image self image_path custom_prompt w))
      <> None.
Proof.
  unfold_orchestrator. split_outcomes.
  all: simpl; split; intros H; try discriminate; try reflexivity;
    try congruence.
Qed.

(** The branch that keeps the normalised copy on disk: once the copy has
    been saved the trace of the normaliser is attached to the result of
    [process_single_image], whatever happens in the later stages; when
    no extraction record was obtained the result has [success = false]
    and an error text next to that trace. *)
Lemma trace_attached_when_copy_saved
    image_path custom_prompt w out meta :
  preprocess_enabled self = true ->
  save_processed self = true ->
  Preprocess.process_image image_path true true true = Ok (out, meta) ->
  mkdir_error
    (path_join (processed_images_dir self)
       (path_stem image_path ++ "_processed.jpg")) = None ->
  let result := fst (process_single_image self image_path custom_prompt w) in
  preprocessing result = Some meta
  /\ (ocr result = None -> success result = false /\ error result <> None).
Proof.
  intros Hpre Hsave Hrun Hmkdir result. subst result.
  unfold_orchestrator. rewrite Hpre, Hrun.
  cbv beta iota zeta. rewrite Hsave, Hmkdir.
  split_outcomes.
  all: simpl; split; [reflexivity | intros H; try discriminate H].
  all: split; [reflexivity | discriminate].
Qed.

(** C2, as the code has it. When the pattern matches no file,
    [process_directory] returns the empty list at once and leaves the
    world as it found it: no image is processed, no summary is built
    and no file is written. *)
Theorem empty_directory_returns_at_once
    directory pattern custom_prompt w :
  glob directory pattern = [] ->
  process_directory self directory pattern custom_prompt w = (Ok [], w).
Proof.
  intros Hglob. unfold process_directory. rewrite Hglob. reflexivity.
Qed.

End Orchestrator.

(** C1. The code against the claim: on a host where the notes directory
    cannot be written, an image whose extraction succeeds ends with
    [success = true] although the write of the markdown file raised: the
    result carries the error text, names no output file, and no file
    was written. *)
Theorem success_set_before_outputs_written :
  success (fst Demo.locked_run) = true
  /\ ocr (fst Demo.locked_run) <> None
  /\ error (fst Demo.locked_run) = Some "[Errno 13] Permission denied"%string
  /\ output_markdown (fst Demo.locked_run) = None
  /\ output_json (fst Demo.locked_run) = None
  /\ files (snd Demo.locked_run) = [].
Proof.
  vm_compute. repeat split; try reflexivity. discriminate.
Qed.

(** C9. The code against the claim: with normalisation on and no copy
    kept on disk the normaliser produces a trace, the image is extracted
    and written out, and the result of [process_single_image] holds no
    trace: the branch that passes the image through a temporary file does
    not store what the branch that keeps the copy stores. *)
Theorem trace_dropped_without_copy :
  preprocess_enabled Demo.pipeline_in_memory = true
  /\ (exists out,
        Preprocess.process_image (cv2 := Demo.cv2_sideways) "inbox/page1.jpg"
          true true true = Ok (out, Demo.sideways_trace))
  /\ preprocessing (fst Demo.in_memory_run) = None
  /\ success (fst Demo.in_memory_run) = true
  /\ preprocessing (fst Demo.saving_run) = Some Demo.sideways_trace.
Proof.
  split; [reflexivity | split; [eexists; vm_compute; reflexivity|]].
  repeat split; vm_compute; reflexivity.
Qed.

End IngestNotesProps.

(** ** The statements on concrete worlds *)

Module Checks.

Import Preprocess OcrVision IngestNotes Ledger.

Local Open Scope string_scope.

(** C2, against the wording of the claim: for a directory with no
    matching file the code returns the empty list, but no summary with
    [total_images = 0] is among the files written. *)
Lemma empty_directory_summary_counterexample :
  ~ (fst Demo.empty_batch = Ok []
     /\ exists path summary,
          In (path, JsonSummary summary) (files (snd Demo.empty_batch))
          /\ total_images summary = 0).
Proof.
  intros (_ & path & summary & Hin & _). vm_compute in Hin. exact Hin.
Qed.

Lemma empty_directory_returns_at_once_witness :
  glob (Host := Demo.host) "inbox" "*.jpg" = []
  /\ Demo.empty_batch = (Ok [], Demo.world0).
Proof.
  split; [reflexivity|].
  apply (@IngestNotesProps.empty_directory_returns_at_once nat Demo.cv2_blank
           Demo.svc_plain Demo.host Demo.pipeline_saving "inbox" "*.jpg" None
           Demo.world0).
  reflexivity.
Defined.


Lemma trace_attached_when_copy_saved_witness :
  preprocessing (fst Demo.saving_run) = Some Demo.sideways_trace.
Proof.
  refine (proj1 (@IngestNotesProps.trace_attached_when_copy_saved nat
                   Demo.cv2_sideways Demo.svc_plain Demo.host
                   Demo.pipeline_saving "inbox/page1.jpg" None Demo.world0
                   [[4; 1]; [5; 2]; [6; 3]] Demo.sideways_trace
                   _ _ _ _)); reflexivity.
Defined.

Lemma zero_lines_no_rotation_witness :
  HoughLines (Cv2 := Demo.cv2_blank) Demo.page = None
  /\ detect_orientation (cv2 := Demo.cv2_blank) Demo.page = 0%Q.
Proof.
  split; [reflexivity|].
  refine (proj1 (@PreprocessProps.zero_lines_no_rotation nat Demo.cv2_blank
                   Demo.page _)).
  left; reflexivity.
Defined.

Lemma detect_orientation_first_fullest_bin_witness :
  (exists b, b < 5
             /\ detect_orientation (cv2 := Demo.cv2_sideways) Demo.page
                = angle_of_bin b)
  /\ SpecWords.dominant_of_merged
       (line_angles (cv2 := Demo.cv2_sideways) [(10, 11 # 7); (25, 11 # 7)]%Q)
       (detect_orientation (cv2 := Demo.cv2_sideways) Demo.page)
     = true.
Proof.
  destruct (@PreprocessProps.detect_orientation_first_fullest_bin nat
              Demo.cv2_sideways Demo.page
              [(10, 11 # 7); (25, 11 # 7)]%Q eq_refl)
    as (_ & b & Hb & _ & _ & Hdet & _ & Hmerged).
  split; [exists b; split; assumption|].
  apply Hmerged. repeat constructor; unfold Qle; simpl; lia.
Defined.

Lemma half_turn_range_never_270_witness :
  ~ (detect_orientation (cv2 := Demo.cv2_sideways) Demo.page == 270)%Q.
Proof.
  refine (proj2 (proj2 (proj2
    (@PreprocessProps.half_turn_range_never_270 nat Demo.cv2_sideways
       Demo.page [(10, 11 # 7); (25, 11 # 7)]%Q _ _ _)))).
  - reflexivity.
  - discriminate.
  - repeat constructor; unfold Qle; simpl; lia.
Defined.

Lemma four_quarter_turns_identity_witness :
  rotate_image (cv2 := Demo.cv2_blank)
    (rotate_image (cv2 := Demo.cv2_blank)
       (rotate_image (cv2 := Demo.cv2_blank)
          (rotate_image (cv2 := Demo.cv2_blank) Demo.page 90) 90) 90) 90
  = Demo.page.
Proof.
  refine (proj1 (@PreprocessProps.four_quarter_turns_identity nat
                   Demo.cv2_blank Demo.page _)).
  exists 2, 3. repeat split; try lia; repeat constructor.
Defined.

Lemma steps_in_fixed_order_witness :
  exists out meta,
    process_image (cv2 := Demo.cv2_sideways) "inbox/page1.jpg" true true true
    = Ok (out, meta)
    /\ SpecWords.subsequence (steps meta)
         [ rotated_step Demo.show_angle
             (detect_orientation (cv2 := Demo.cv2_sideways) Demo.page);
           "denoised"; "contrast_enhanced" ].
Proof.
  destruct (@PreprocessProps.steps_in_fixed_order nat Demo.cv2_sideways
              "inbox/page1.jpg" Demo.page true true true eq_refl)
    as (out & meta & Hrun & Hsub & _).
  exists out, meta; split; assumption.
Defined.

Lemma unstructured_response_fallback_witness :
  exists record w',
    Demo.plain_call = (Ok record, w')
    /\ field "transcription" record
       = Some (PStr "Dasein is being-in-the-world")
    /\ field "quality_rating" record = Some (PInt 3).
Proof.
  destruct (@OcrVisionProps.unstructured_response_fallback Demo.svc_plain
              "inbox/page1.jpg" None "aGVsbG8=" Demo.plain_response
              "Dasein is being-in-the-world" Demo.world0
              eq_refl eq_refl eq_refl eq_refl)
    as (record & w' & Hrun & Ht & _ & _ & _ & _ & Hq & _).
  exists record, w'; repeat split; assumption.
Defined.


End Checks.

(** * Further properties *)

(** ** Quarter turns, continued *)

Module GridMore.

Import Preprocess.

Section Lemmas.

Variable pixel : Type.

Implicit Types (image : Image pixel).

(** Reversing the order of the rows mirrors every column. *)
Lemma transpose_rev h w image :
  rectangular h w image ->
  transpose w (rev image) = map (@rev pixel) (transpose w image).
Proof.
  intros Hrect.
  pose proof (GridFacts.transpose_rectangular Hrect) as Hcols.
  assert (Hmir : rectangular w h (map (@rev pixel) (transpose w image))).
  { destruct Hcols as [Hlen Hrows]; split.
    - rewrite length_map; exact Hlen.
    - apply Forall_map. eapply Forall_impl; [|exact Hrows].
      intros c Hc; simpl. rewrite length_rev; exact Hc. }
  rewrite <- (GridFacts.transpose_involutive Hmir).
  rewrite GridFacts.transpose_map_rev by apply Hcols.
  rewrite (GridFacts.transpose_involutive Hrect). reflexivity.
Qed.

Lemma rotate_ccw_rectangular h w image :
  0 < h -> rectangular h w image ->
  rectangular w h (cv2_rotate image ROTATE_90_COUNTERCLOCKWISE).
Proof.
  intros Hh Hrect. unfold cv2_rotate.
  rewrite (GridFacts.hd_length Hh Hrect).
  destruct (GridFacts.transpose_rectangular Hrect) as [Hlen Hrows].
  split.
  - rewrite length_rev; exact Hlen.
  - apply Forall_rev; exact Hrows.
Qed.

Lemma rotate_cw_then_ccw h w image :
  0 < h -> 0 < w -> rectangular h w image ->
  cv2_rotate (cv2_rotate image ROTATE_90_CLOCKWISE) ROTATE_90_COUNTERCLOCKWISE
  = image.
Proof.
  intros Hh Hw Hrect.
  pose proof (GridFacts.rotate_cw_rectangular Hh Hrect) as Hrot.
  unfold cv2_rotate at 1. rewrite (GridFacts.hd_length Hw Hrot).
  unfold cv2_rotate. rewrite (GridFacts.hd_length Hh Hrect).
  rewrite GridFacts.transpose_map_rev
    by (eapply GridFacts.transpose_rows; exact Hrect).
  rewrite rev_involutive. apply (GridFacts.transpose_involutive Hrect).
Qed.

Lemma rotate_ccw_then_cw h w image :
  0 < h -> 0 < w -> rectangular h w image ->
  cv2_rotate (cv2_rotate image ROTATE_90_COUNTERCLOCKWISE) ROTATE_90_CLOCKWISE
  = image.
Proof.
  intros Hh Hw Hrect.
  pose proof (rotate_ccw_rectangular Hh Hrect) as Hrot.
  unfold cv2_rotate at 1. rewrite (GridFacts.hd_length Hw Hrot).
  unfold cv2_rotate. rewrite (GridFacts.hd_length Hh Hrect).
  rewrite (transpose_rev (GridFacts.transpose_rectangular Hrect)).
  rewrite (GridFacts.transpose_involutive Hrect).
  rewrite map_map. erewrite map_ext; [apply map_id|].
  intros; apply rev_involutive.
Qed.

Lemma rotate_ccw_twice h w image :
  0 < h -> 0 < w -> rectangular h w image ->
  cv2_rotate (cv2_rotate image ROTATE_90_COUNTERCLOCKWISE)
    ROTATE_90_COUNTERCLOCKWISE
  = cv2_rotate image ROTATE_180.
Proof.
  intros Hh Hw Hrect.
  pose proof (rotate_ccw_rectangular Hh Hrect) as Hrot.
  unfold cv2_rotate at 1. rewrite (GridFacts.hd_length Hw Hrot).
  unfold cv2_rotate. rewrite (GridFacts.hd_length Hh Hrect).
  rewrite (transpose_rev (GridFacts.transpose_rectangular Hrect)).
  rewrite (GridFacts.transpose_involutive Hrect).
  symmetry; apply map_rev.
Qed.

Lemma shape_rectangular h w image :
  0 < h -> rectangular h w image -> shape image = (h, w).
Proof.
  intros Hh Hrect. unfold shape.
  rewrite (GridFacts.hd_length Hh Hrect). destruct Hrect as [-> _].
  reflexivity.
Qed.

(** Height and width after [cv2.rotate]. *)
Lemma rotate_shape h w image code :
  0 < h -> 0 < w -> rectangular h w image ->
  shape (cv2_rotate image code)
  = match code with
    | ROTATE_180 => (h, w)
    | _ => (w, h)
    end.
Proof.
  intros Hh Hw Hrect. destruct code.
  - apply shape_rectangular; [exact Hw|].
    apply (GridFacts.rotate_cw_rectangular Hh Hrect).
  - apply shape_rectangular; [exact Hh|].
    apply (GridFacts.rotate_180_rectangular Hrect).
  - apply shape_rectangular; [exact Hw|].
    apply (rotate_ccw_rectangular Hh Hrect).
Qed.

End Lemmas.

End GridMore.

(** ** The normaliser, continued *)

Module PreprocessMore.

Import Preprocess Variants.

Lemma count_if_permutation (A : Type) (f : A -> bool) (l l' : list A) :
  Permutation l l' -> Numpy.count_if f l = Numpy.count_if f l'.
Proof.
  unfold Numpy.count_if.
  induction 1 as [|x l l' _ IH|x y l|l l' l'' _ IH1 _ IH2]; simpl.
  - reflexivity.
  - destruct (f x); simpl; congruence.
  - destruct (f x), (f y); reflexivity.
  - congruence.
Qed.

Lemma count_if_filter (A : Type) (f g : A -> bool) (l : list A) :
  (forall x, f x = true -> g x = true) ->
  Numpy.count_if f (filter g l) = Numpy.count_if f l.
Proof.
  intros Himp. unfold Numpy.count_if.
  induction l as [|x l IH]; simpl; [reflexivity|].
  destruct (g x) eqn:Hg; simpl.
  - destruct (f x); simpl; congruence.
  - destruct (f x) eqn:Hf; [|exact IH].
    rewrite (Himp x Hf) in Hg; discriminate.
Qed.

(** A value counted in a bin whose edges lie between 0 and 360 lies
    between 0 and 360. *)
Lemma in_bin_in_range (lo hi : Q) (last : bool) (x : Q) :
  (0 <= lo)%Q -> (hi <= 360)%Q ->
  Numpy.in_bin lo hi last x = true -> in_range x = true.
Proof.
  intros Hlo Hhi. unfold Numpy.in_bin, in_range.
  rewrite !andb_true_iff. intros [Hle Hup].
  apply Qle_bool_iff in Hle. split; apply Qle_bool_iff.
  - eapply Qle_trans; eassumption.
  - destruct last.
    + apply Qle_bool_iff in Hup. eapply Qle_trans; eassumption.
    + apply negb_true_iff in Hup.
      destruct (Qlt_le_dec x hi) as [Hlt | Hge].
      * apply Qlt_le_weak. eapply Qlt_le_trans; eassumption.
      * apply Qle_bool_iff in Hge. congruence.
Qed.

Lemma dominant_angle_right_angle (angles : list Q) :
  dominant_angle angles = 0%Q \/ dominant_angle angles = 90%Q
  \/ dominant_angle angles = 180%Q \/ dominant_angle angles = 270%Q.
Proof.
  unfold dominant_angle, angle_of_bin.
  destruct (_ || _)%bool; auto.
  destruct (_ =? 1); auto. destruct (_ =? 2); auto.
Qed.

Section Normaliser.

Context {pixel : Type} {cv2 : Cv2 pixel}.

(** Quarter turns of a decoded image compose as rotations do: a quarter
    turn to one side followed by one to the other side gives back the
    image, and two quarter turns to the same side are the half turn. *)
Theorem quarter_turns_compose (image : Image pixel) :
  decoded image ->
  rotate_image (rotate_image image 90) 270 = image
  /\ rotate_image (rotate_image image 270) 90 = image
  /\ rotate_image (rotate_image image 90) 90 = rotate_image image 180
  /\ rotate_image (rotate_image image 270) 270 = rotate_image image 180.
Proof.
  intros (h & w & Hh & Hw & Hrect). repeat split.
  - apply (GridMore.rotate_cw_then_ccw Hh Hw Hrect).
  - apply (GridMore.rotate_ccw_then_cw Hh Hw Hrect).
  - apply (GridFacts.rotate_cw_twice Hh Hw Hrect).
  - apply (GridMore.rotate_ccw_twice Hh Hw Hrect).
Qed.

(** Rotating by 180 degrees twice gives back any image. *)
Theorem half_turn_involutive (image : Image pixel) :
  rotate_image (rotate_image image 180) 180 = image.
Proof.
  change (map (@rev pixel) (rev (map (@rev pixel) (rev image))) = image).
  rewrite <- map_rev, rev_involutive, map_map.
  erewrite map_ext; [apply map_id|]. intros row; apply rev_involutive.
Qed.

(** The half turn keeps height and width of a decoded image; the quarter
    turn to the left swaps them. *)
Theorem turn_shapes (image : Image pixel) :
  decoded image ->
  shape (rotate_image image 180) = shape image
  /\ shape (rotate_image image 270) = swap_shape (shape image).
Proof.
  intros (h & w & Hh & Hw & Hrect).
  rewrite (GridMore.shape_rectangular Hh Hrect). split.
  - apply (GridMore.rotate_shape ROTATE_180 Hh Hw Hrect).
  - apply (GridMore.rotate_shape ROTATE_90_COUNTERCLOCKWISE Hh Hw Hrect).
Qed.

(** [detect_orientation] returns 0, 90, 180 or 270 for every image. *)
Theorem detect_orientation_right_angle (image : Image pixel) :
  detect_orientation image = 0%Q \/ detect_orientation image = 90%Q
  \/ detect_orientation image = 180%Q \/ detect_orientation image = 270%Q.
Proof.
  unfold detect_orientation. destruct (HoughLines image); auto.
  apply dominant_angle_right_angle.
Qed.

(** [process_image] never reaches the affine fallback of [rotate_image]:
    its result is the same whatever [cv2.warpAffine] would compute. *)
Theorem process_image_never_warps
    (warp : Image pixel -> Q -> Image pixel)
    (image_path : string) (auto_orient enhance denoise : bool) :
  process_image (cv2 := with_warpAffine cv2 warp) image_path
    auto_orient enhance denoise
  = process_image image_path auto_orient enhance denoise.
Proof.
  unfold process_image.
  change (@imread pixel (with_warpAffine cv2 warp)) with (@imread pixel cv2).
  destruct (imread image_path) as [image|]; [|reflexivity].
  assert (Horient : forall meta,
             orient_stage (cv2 := with_warpAffine cv2 warp) auto_orient
               (image, meta)
             = orient_stage auto_orient (image, meta)).
  { intros meta. unfold orient_stage.
    change (detect_orientation (cv2 := with_warpAffine cv2 warp) image)
      with (detect_orientation image).
    destruct auto_orient; [|reflexivity].
    assert (Hangle : detect_orientation image = 0%Q
                     \/ detect_orientation image = 90%Q
                     \/ detect_orientation image = 180%Q
                     \/ detect_orientation image = 270%Q).
    { unfold detect_orientation. destruct (HoughLines image); auto.
      apply dominant_angle_right_angle. }
    destruct Hangle as [-> | [-> | [-> | ->]]]; reflexivity. }
  rewrite Horient. reflexivity.
Qed.

(** A bin that holds strictly more angles than each of the other four
    decides the answer of [detect_orientation]. *)
Theorem strict_plurality_decides
    (image : Image pixel) (lines : list (Q * Q)) (k : nat) :
  HoughLines image = Some lines ->
  k < 5 ->
  (forall j, j < 5 -> j <> k ->
     nth j (Numpy.histogram (line_angles lines) bins) 0
     < nth k (Numpy.histogram (line_angles lines) bins) 0) ->
  detect_orientation image = angle_of_bin k.
Proof.
  intros Hlines Hk Hmost.
  set (hist := Numpy.histogram (line_angles lines) bins) in *.
  pose proof (VoteFacts.histogram_bins (line_angles lines)) as Hhist.
  fold hist in Hhist.
  assert (Hne : hist <> []) by (rewrite Hhist; discriminate).
  assert (Hlen : List.length hist = 5) by (rewrite Hhist; reflexivity).
  destruct (VoteFacts.argmax_spec Hne) as (Hlt & Hmax & _).
  rewrite Hlen in Hlt, Hmax.
  unfold detect_orientation. rewrite Hlines.
  unfold dominant_angle. fold hist.
  destruct (Nat.eq_dec (Numpy.argmax hist) k) as [-> | Hne']; [reflexivity|].
  specialize (Hmost _ Hlt Hne'). specialize (Hmax k Hk). lia.
Qed.

(** The answer of [detect_orientation] does not depend on the order in
    which the detector lists the lines. *)
Theorem line_order_irrelevant
    (image image' : Image pixel) (lines lines' : list (Q * Q)) :
  HoughLines image = Some lines ->
  HoughLines image' = Some lines' ->
  Permutation lines lines' ->
  detect_orientation image = detect_orientation image'.
Proof.
  intros Hlines Hlines' Hperm.
  unfold detect_orientation. rewrite Hlines, Hlines'.
  unfold dominant_angle. rewrite !VoteFacts.histogram_bins.
  assert (Hangles : Permutation (line_angles lines)
                      (line_angles lines'))
    by (apply Permutation_map; exact Hperm).
  rewrite !(count_if_permutation _ Hangles). reflexivity.
Qed.

(** Lines whose angle lies below 0 or above 360 degrees have no vote:
    leaving them out does not change the answer. *)
Theorem out_of_range_angles_ignored (angles : list Q) :
  dominant_angle angles = dominant_angle (filter in_range angles).
Proof.
  unfold dominant_angle. rewrite !VoteFacts.histogram_bins.
  rewrite !count_if_filter; [reflexivity | | | | |];
    intros x; apply in_bin_in_range; unfold Qle; simpl; lia.
Qed.

(** With filters that keep the size of an image, the trace of
    [process_image] records the size of the decoded image as
    [original_size] and the size of the returned image as [final_size];
    the two differ, by a swap of height and width, exactly when a quarter
    turn was applied. *)
Theorem final_size_follows_rotation
    (image_path : string) (image : Image pixel)
    (auto_orient enhance denoise : bool) :
  (forall img, shape (bilateralFilter img) = shape img) ->
  (forall img, shape (clahe_lab img) = shape img) ->
  imread image_path = Some image ->
  decoded image ->
  exists out meta,
    process_image image_path auto_orient enhance denoise = Ok (out, meta)
    /\ original_size meta = shape image
    /\ final_size meta = Some (shape out)
    /\ shape out
       = (if is_quarter_turn (rotation_applied meta)
          then swap_shape (shape image) else shape image).
Proof.
  intros Hbil Hclahe Hread (h & w & Hh & Hw & Hrect).
  assert (Hturn : forall angle,
             angle = 0%Q \/ angle = 90%Q \/ angle = 180%Q \/ angle = 270%Q ->
             shape (rotate_image image angle)
             = (if is_quarter_turn angle
                then swap_shape (shape image) else shape image)).
  { intros angle Hangle. rewrite (GridMore.shape_rectangular Hh Hrect).
    destruct Hangle as [-> | [-> | [-> | ->]]].
    - apply (GridMore.shape_rectangular Hh Hrect).
    - apply (GridMore.rotate_shape ROTATE_90_CLOCKWISE Hh Hw Hrect).
    - apply (GridMore.rotate_shape ROTATE_180 Hh Hw Hrect).
    - apply (GridMore.rotate_shape ROTATE_90_COUNTERCLOCKWISE Hh Hw Hrect). }
  unfold process_image. rewrite Hread.
  unfold enhance_stage, denoise_stage, orient_stage.
  assert (Hangle : detect_orientation image = 0%Q
                   \/ detect_orientation image = 90%Q
                   \/ detect_orientation image = 180%Q
                   \/ detect_orientation image = 270%Q).
  { unfold detect_orientation. destruct (HoughLines image); auto.
    apply dominant_angle_right_angle. }
  pose proof (Hturn _ Hangle) as Hshape.
  destruct auto_orient, denoise, enhance;
    destruct (Qeq_bool (detect_orientation image) 0) eqn:Hzero;
    simpl; eexists; eexists;
    (split; [reflexivity | split; [reflexivity | split; [reflexivity|]]]);
    simpl; unfold enhance_contrast, remove_noise;
    rewrite ?Hclahe, ?Hbil; try reflexivity; try exact Hshape.
Qed.

End Normaliser.

End PreprocessMore.

(** ** Splitting and joining text *)

Module TextFacts.

Import Py PyText.

Local Open Scope string_scope.

Lemma append_assoc (a b c : string) : (a ++ b) ++ c = a ++ (b ++ c).
Proof. induction a as [|x a IH]; simpl; [reflexivity | now rewrite IH]. Qed.

Lemma append_nil_r (a : string) : a ++ "" = a.
Proof. induction a as [|x a IH]; simpl; [reflexivity | now rewrite IH]. Qed.

Lemma length_append (a b : string) :
  String.length (a ++ b) = String.length a + String.length b.
Proof. induction a as [|x a IH]; simpl; [reflexivity | now rewrite IH]. Qed.

Lemma prefix_append (sep rest : string) : prefix sep (sep ++ rest) = true.
Proof.
  induction sep as [|a sep IH]; simpl.
  - destruct rest; reflexivity.
  - destruct (ascii_dec a a); [exact IH | congruence].
Qed.

Lemma prefix_split (sep s : string) :
  prefix sep s = true -> exists rest, s = sep ++ rest.
Proof.
  revert s; induction sep as [|a sep IH]; intros s H.
  - exists s; reflexivity.
  - destruct s as [|b s]; simpl in H; [discriminate|].
    destruct (ascii_dec a b) as [->|]; [|discriminate].
    destruct (IH _ H) as [rest ->]. exists rest; reflexivity.
Qed.

Lemma prefix_empty_target (sep : string) :
  sep <> "" -> prefix sep "" = false.
Proof. destruct sep; [congruence | reflexivity]. Qed.

(** The scan drops what is left of a separator it has recognised. *)
Lemma split_scan_skip (sep t rest cur : string) :
  split_scan sep (String.length t) cur (t ++ rest)
  = split_scan sep 0 cur rest.
Proof. induction t as [|a t IH]; simpl; [reflexivity | exact IH]. Qed.

Lemma split_scan_nonempty (sep : string) (skip : nat) (cur s : string) :
  split_scan sep skip cur s <> [].
Proof.
  revert skip cur; induction s as [|c s IH]; intros skip cur;
    cbn [split_scan].
  - discriminate.
  - destruct skip; [|apply IH].
    destruct (prefix sep (String c s)); [discriminate | apply IH].
Qed.

Lemma join_cons (sep p : string) (parts : list string) :
  parts <> [] -> join sep (p :: parts) = p ++ sep ++ join sep parts.
Proof. destruct parts; [congruence | reflexivity]. Qed.

(** One step of the scan at the start of a separator. *)
Lemma split_scan_at_separator (a : ascii) (sep' rest cur : string) :
  split_scan (String a sep') 0 cur (String a sep' ++ rest)
  = cur :: split_scan (String a sep') 0 "" rest.
Proof.
  change (String a sep' ++ rest) with (String a (sep' ++ rest)).
  cbn [split_scan].
  change (String a (sep' ++ rest)) with (String a sep' ++ rest).
  rewrite prefix_append.
  cbn [String.length]. rewrite Nat.sub_succ, Nat.sub_0_r.
  rewrite split_scan_skip. reflexivity.
Qed.

Lemma split_scan_joins (sep : string) (n : nat) :
  sep <> "" ->
  forall s cur,
    String.length s <= n ->
    join sep (split_scan sep 0 cur s) = cur ++ s.
Proof.
  intros Hsep. destruct sep as [|a sep']; [congruence|].
  induction n as [|n IH]; intros s cur Hlen.
  - destruct s; simpl in Hlen; [|lia]. simpl. now rewrite append_nil_r.
  - destruct s as [|c s]; [simpl; now rewrite append_nil_r|].
    destruct (prefix (String a sep') (String c s)) eqn:Hpre.
    + destruct (prefix_split _ _ Hpre) as [rest Hs]. rewrite Hs.
      rewrite split_scan_at_separator.
      rewrite join_cons by apply split_scan_nonempty.
      rewrite IH; [reflexivity|].
      apply (f_equal String.length) in Hs. rewrite length_append in Hs.
      simpl in Hs, Hlen. lia.
    + cbn [split_scan]. rewrite Hpre. rewrite IH by (simpl in Hlen; lia).
      rewrite append_assoc. reflexivity.
Qed.

(** [sep.join(s.split(sep)) == s] for every text and every non-empty
    separator. *)
Theorem join_split (sep s : string) :
  sep <> "" -> join sep (split sep s) = s.
Proof.
  intros Hsep. unfold split.
  apply (@split_scan_joins sep (String.length s) Hsep). lia.
Qed.

Lemma split_scan_absent (sep : string) :
  forall s cur,
    contains sep s = false -> split_scan sep 0 cur s = [cur ++ s].
Proof.
  induction s as [|c s IH]; intros cur H; cbn [split_scan].
  - now rewrite append_nil_r.
  - cbn [contains] in H. apply orb_false_iff in H.
    destruct H as [Hpre Hrest].
    rewrite Hpre, (IH (cur ++ String c "") Hrest), append_assoc.
    reflexivity.
Qed.

Lemma split_scan_present (sep : string) :
  sep <> "" ->
  forall s cur,
    contains sep s = true -> 2 <= List.length (split_scan sep 0 cur s).
Proof.
  intros Hsep. induction s as [|c s IH]; intros cur H.
  - cbn [contains] in H. rewrite (prefix_empty_target Hsep) in H.
    discriminate.
  - cbn [split_scan]. destruct (prefix sep (String c s)) eqn:Hpre.
    + cbn [List.length].
      pose proof (@split_scan_nonempty sep (String.length sep - 1) "" s) as Hne.
      destruct (split_scan sep (String.length sep - 1) "" s);
        [congruence | simpl; lia].
    + apply IH. cbn [contains] in H. rewrite Hpre in H. exact H.
Qed.

(** A text that holds the separator splits into at least two pieces, so
    that taking the second piece cannot fail; a text that does not hold it
    is its own single piece. *)
Theorem split_pieces (sep s : string) :
  sep <> "" ->
  (contains sep s = true -> 2 <= List.length (split sep s))
  /\ (contains sep s = false -> split sep s = [s]).
Proof.
  intros Hsep. split; intros H.
  - apply (split_scan_present Hsep); exact H.
  - unfold split. rewrite (@split_scan_absent sep s "" H). reflexivity.
Qed.

End TextFacts.

(** ** The fenced block of a response *)

Module FenceFacts.

Import Py PyText OcrVision.

Local Open Scope string_scope.

Lemma lacks_cons (c a : ascii) (s : string) :
  lacks c (String a s) = true -> c <> a /\ lacks c s = true.
Proof.
  cbn [lacks]. rewrite andb_true_iff, negb_true_iff, Ascii.eqb_neq. tauto.
Qed.

Lemma contains_unfold (sep s : string) :
  contains sep s
  = (prefix sep s
     || match s with
        | "" => false
        | String _ s' => contains sep s'
        end)%bool.
Proof. destruct s; reflexivity. Qed.

Lemma contains_at_start (sep rest : string) :
  contains sep (sep ++ rest) = true.
Proof. rewrite contains_unfold, TextFacts.prefix_append. reflexivity. Qed.

Lemma prefix_other_head (a b : ascii) (sep' s : string) :
  a <> b -> prefix (String a sep') (String b s) = false.
Proof. intros Hne. cbn [prefix]. destruct (ascii_dec a b); congruence. Qed.

(** A stretch of text without the first character of the separator is
    read into the current piece. *)
Lemma split_scan_lacking (a : ascii) (sep' : string) :
  forall pre s cur,
    lacks a pre = true ->
    split_scan (String a sep') 0 cur (pre ++ s)
    = split_scan (String a sep') 0 (cur ++ pre) s.
Proof.
  induction pre as [|b pre IH]; intros s cur Hpre.
  - cbn [append]. now rewrite TextFacts.append_nil_r.
  - destruct (lacks_cons _ _ _ Hpre) as [Hne Hrest].
    change (String b pre ++ s) with (String b (pre ++ s)).
    cbn [split_scan]. rewrite prefix_other_head by exact Hne.
    rewrite IH by exact Hrest. rewrite TextFacts.append_assoc. reflexivity.
Qed.

Lemma contains_lacking_prefix (a : ascii) (sep' : string) :
  forall pre s,
    lacks a pre = true ->
    contains (String a sep') (pre ++ s) = contains (String a sep') s.
Proof.
  induction pre as [|b pre IH]; intros s Hpre; [reflexivity|].
  destruct (lacks_cons _ _ _ Hpre) as [Hne Hrest].
  change (String b pre ++ s) with (String b (pre ++ s)).
  cbn [contains]. rewrite prefix_other_head by exact Hne.
  apply IH, Hrest.
Qed.

Lemma contains_lacking (a : ascii) (sep' s : string) :
  lacks a s = true -> contains (String a sep') s = false.
Proof.
  intros Hs. rewrite <- (TextFacts.append_nil_r s).
  rewrite contains_lacking_prefix by exact Hs. reflexivity.
Qed.

(** An occurrence of a text without [c] cannot run over a [c]. *)
Lemma prefix_before (c : ascii) :
  forall p b t,
    lacks c p = true ->
    prefix p (b ++ String c t) = true -> prefix p b = true.
Proof.
  induction p as [|a p IH]; intros b t Hp H.
  - destruct b; reflexivity.
  - destruct (lacks_cons _ _ _ Hp) as [Hne Hrest].
    destruct b as [|b0 b].
    + cbn [append] in H.
      rewrite prefix_other_head in H by (apply not_eq_sym; exact Hne).
      discriminate.
    + change (String b0 b ++ String c t) with (String b0 (b ++ String c t))
        in H.
      cbn [prefix] in *. destruct (ascii_dec a b0); [|discriminate].
      eapply IH; eassumption.
Qed.

(** Where the tagged fence can start in a text that opens with three
    backticks. *)
Lemma contains_after_fence (x : string) :
  contains fence_json (fence ++ x)
  = (prefix "json" x || prefix "`json" x || prefix "``json" x
     || contains fence_json x)%bool.
Proof.
  unfold fence_json, fence. cbn [append contains].
  rewrite !orb_assoc. reflexivity.
Qed.

Lemma no_backtick_start (p x : string) :
  lacks backtick x = true -> prefix (String backtick p) x = false.
Proof.
  intros Hx. destruct x as [|a x]; [reflexivity|].
  destruct (lacks_cons _ _ _ Hx) as [Hne _].
  apply prefix_other_head; exact Hne.
Qed.

Lemma no_tagged_fence_after (post : string) :
  lacks backtick post = true ->
  prefix "json" post = false ->
  contains fence_json (fence ++ post) = false.
Proof.
  intros Hpost Hjson. rewrite contains_after_fence, Hjson.
  rewrite !no_backtick_start by exact Hpost.
  unfold fence_json. rewrite contains_lacking by exact Hpost. reflexivity.
Qed.

(** The first piece up to a plain fence is the text before it. *)
Lemma first_piece_before_fence (body rest : string) :
  lacks backtick body = true ->
  nth 0 (split fence (body ++ fence ++ rest)) "" = body.
Proof.
  intros Hbody. unfold split, fence.
  rewrite split_scan_lacking by exact Hbody.
  rewrite TextFacts.split_scan_at_separator. reflexivity.
Qed.

Lemma single_piece (body : string) :
  lacks backtick body = true -> nth 0 (split fence body) "" = body.
Proof.
  intros Hbody. unfold split, fence.
  rewrite TextFacts.split_scan_absent by (apply contains_lacking; exact Hbody).
  reflexivity.
Qed.

(** A response that wraps its answer in a fence tagged [json]: the text
    handed to [json.loads] is the text between that fence and the next
    fence, without the white space around it. *)
Theorem json_fence_extracted (pre body post : string) :
  lacks backtick pre = true ->
  lacks backtick body = true ->
  lacks backtick post = true ->
  json_str_of (pre ++ fence_json ++ body ++ fence ++ post) = strip body.
Proof.
  intros Hpre Hbody Hpost. unfold json_str_of.
  assert (Hin : contains fence_json (pre ++ fence_json ++ body ++ fence ++ post)
                = true).
  { unfold fence_json at 1. rewrite contains_lacking_prefix by exact Hpre.
    apply contains_at_start. }
  rewrite Hin. f_equal.
  assert (Hsecond :
            nth 1 (split fence_json
                     (pre ++ fence_json ++ body ++ fence ++ post)) ""
            = nth 0 (split_scan fence_json 0 body (fence ++ post)) "").
  { unfold split, fence_json.
    rewrite split_scan_lacking by exact Hpre.
    rewrite TextFacts.split_scan_at_separator. cbn [nth].
    rewrite split_scan_lacking by exact Hbody. reflexivity. }
  rewrite Hsecond.
  destruct (prefix "json" post) eqn:Hjson.
  - destruct (TextFacts.prefix_split _ _ Hjson) as [rest ->].
    change (fence ++ "json" ++ rest) with (fence_json ++ rest).
    unfold fence_json at 1 2.
    rewrite TextFacts.split_scan_at_separator. cbn [nth].
    apply single_piece; exact Hbody.
  - rewrite TextFacts.split_scan_absent
      by (apply no_tagged_fence_after; assumption).
    cbn [nth]. apply first_piece_before_fence; exact Hbody.
Qed.

(** A response that wraps its answer in a plain fence, with no fence
    tagged [json] anywhere: the text handed to [json.loads] is the text
    between the first two fences, without the white space around it. *)
Theorem plain_fence_extracted (pre body post : string) :
  lacks backtick pre = true ->
  lacks backtick body = true ->
  lacks backtick post = true ->
  prefix "json" body = false ->
  prefix "json" post = false ->
  json_str_of (pre ++ fence ++ body ++ fence ++ post) = strip body.
Proof.
  intros Hpre Hbody Hpost Hjb Hjp. unfold json_str_of.
  assert (Hout : contains fence_json (pre ++ fence ++ body ++ fence ++ post)
                 = false).
  { unfold fence_json at 1. rewrite contains_lacking_prefix by exact Hpre.
    fold fence_json. rewrite contains_after_fence.
    assert (H0 : prefix "json" (body ++ fence ++ post) = false).
    { destruct (prefix "json" (body ++ fence ++ post)) eqn:E; [|reflexivity].
      unfold fence in E. cbn [append] in E.
      rewrite (@prefix_before backtick "json" body _ eq_refl E) in Hjb.
      discriminate. }
    assert (H1 : prefix "`json" (body ++ fence ++ post) = false).
    { destruct body as [|a body]; [reflexivity|].
      destruct (lacks_cons _ _ _ Hbody) as [Hne _].
      apply prefix_other_head; exact Hne. }
    assert (H2 : prefix "``json" (body ++ fence ++ post) = false).
    { destruct body as [|a body]; [reflexivity|].
      destruct (lacks_cons _ _ _ Hbody) as [Hne _].
      apply prefix_other_head; exact Hne. }
    rewrite H0, H1, H2. cbn [orb].
    unfold fence_json. rewrite contains_lacking_prefix by exact Hbody.
    apply no_tagged_fence_after; assumption. }
  rewrite Hout.
  assert (Hin : contains fence (pre ++ fence ++ body ++ fence ++ post) = true).
  { unfold fence at 1. rewrite contains_lacking_prefix by exact Hpre.
    apply contains_at_start. }
  rewrite Hin. f_equal.
  assert (Hsecond :
            nth 1 (split fence (pre ++ fence ++ body ++ fence ++ post)) ""
            = body).
  { unfold split, fence.
    rewrite split_scan_lacking by exact Hpre.
    rewrite TextFacts.split_scan_at_separator. cbn [nth].
    rewrite split_scan_lacking by exact Hbody.
    rewrite TextFacts.split_scan_at_separator. reflexivity. }
  rewrite Hsecond. apply single_piece; exact Hbody.
Qed.

End FenceFacts.

(** ** The extraction client, continued *)

Module OcrVisionMore.

Import OcrVision Ledger.

Local Open Scope string_scope.

(** Unfolds one call of the client down to its collaborators. *)
Ltac unfold_call :=
  cbv beta iota zeta delta
    [ extract_text_and_analyze encode_image now
      Eff.bind Eff.lift Eff.ret Eff.raise Eff.modify fst snd ].

(** Splits on the outcome of every collaborator call left in the goal,
    innermost first. *)
Ltac split_call :=
  repeat match goal with
         | |- context [match ?x with _ => _ end] =>
             lazymatch x with
             | context [match _ with _ => _ end] => fail
             | _ => destruct x eqn:?; cbv beta iota zeta delta [fst snd]
             end
         end.

Section Client.

Context {svc : VisionService}.

(** A call that fails before an answer arrives (the image cannot be
    read, or the service raises) lets the error through unchanged and
    leaves the running cost, the clock and the files as they were. *)
Theorem failed_call_changes_nothing
    image_path analysis_prompt msg w :
  read_base64 image_path = Raise msg
  \/ (exists base64_image,
        read_base64 image_path = Ok base64_image
        /\ chat_completions_create model (prompt_of analysis_prompt)
             ("data:image/jpeg;base64," ++ base64_image) = Raise msg) ->
  extract_text_and_analyze image_path analysis_prompt w = (Raise msg, w).
Proof.
  intros [Hread | (b64 & Hread & Hchat)]; unfold_call; rewrite Hread.
  - reflexivity.
  - fold (prompt_of analysis_prompt). rewrite Hchat. reflexivity.
Qed.

(** An answer that decodes to JSON but not to an object (a list, a
    number, a string, ...) makes the call raise, and the tokens it has
    used are not added to the running cost. *)
Theorem non_object_answer_raises_uncharged
    image_path analysis_prompt base64_image response body v w :
  read_base64 image_path = Ok base64_image ->
  chat_completions_create model (prompt_of analysis_prompt)
    ("data:image/jpeg;base64," ++ base64_image) = Ok response ->
  content response = Some body ->
  json_loads (json_str_of body) = Some v ->
  (forall d, v <> PDict d) ->
  exists msg w',
    extract_text_and_analyze image_path analysis_prompt w = (Raise msg, w')
    /\ total_cost w' = total_cost w
    /\ files w' = files w.
Proof.
  intros Hread Hchat Hbody Hjson Hshape.
  unfold_call. rewrite Hread. fold (prompt_of analysis_prompt).
  rewrite Hchat, Hbody. cbv beta iota. unfold parse_content. rewrite Hjson.
  destruct v; try (eexists; eexists; split; [reflexivity | split; reflexivity]).
  exfalso. eapply Hshape; reflexivity.
Qed.

(** Whatever the outcome of a call, it writes no file, and with a
    service that reports non-negative token counts the running cost
    after the call is at least the running cost before it. *)
Theorem call_never_lowers_cost image_path analysis_prompt w :
  (forall m p u response,
     chat_completions_create m p u = Ok response ->
     (0 <= prompt_tokens (usage response))%Z
     /\ (0 <= completion_tokens (usage response))%Z) ->
  (total_cost w
   <= total_cost (snd (extract_text_and_analyze image_path analysis_prompt w)))%Q
  /\ files (snd (extract_text_and_analyze image_path analysis_prompt w))
     = files w.
Proof.
  intros Hservice.
  assert (Hup : forall response m p u,
             chat_completions_create m p u = Ok response ->
             (total_cost w <= total_cost w + call_cost (usage response))%Q).
  { intros response m p u Hchat. destruct (Hservice _ _ _ _ Hchat) as [Hp Hc].
    rewrite <- (Qplus_0_r (total_cost w)) at 1.
    apply Qplus_le_r, OcrVisionProps.call_cost_nonneg; assumption. }
  unfold_call. split_call.
  all: simpl; split; try reflexivity; try apply Qle_refl.
  all: eapply Hup; eassumption.
Qed.

(** When the text handed to [json.loads] decodes to an object whose
    transcription has a length, the call returns that object with every
    field as decoded, except [metadata], which the client sets itself. *)
Theorem decoded_fields_kept
    image_path analysis_prompt base64_image response body d n w :
  read_base64 image_path = Ok base64_image ->
  chat_completions_create model (prompt_of analysis_prompt)
    ("data:image/jpeg;base64," ++ base64_image) = Ok response ->
  content response = Some body ->
  json_loads (json_str_of body) = Some (PDict d) ->
  py_len match Py.dict_get "transcription" d with
         | Some v => v
         | None => PStr EmptyString
         end = Ok n ->
  exists record w',
    extract_text_and_analyze image_path analysis_prompt w = (Ok record, w')
    /\ (forall key, key <> "metadata" ->
          field key record = Py.dict_get key d)
    /\ metadata_entry "model" record = Some (PStr model)
    /\ metadata_entry "image_path" record = Some (PStr image_path)
    /\ metadata_entry "tokens_used" record
       = Some (PDict [ ("prompt", PInt (prompt_tokens (usage response)));
                       ("completion", PInt (completion_tokens (usage response)));
                       ("total", PInt (total_tokens (usage response))) ]).
Proof.
  intros Hread Hchat Hbody Hjson Hlen.
  unfold_call. rewrite Hread. fold (prompt_of analysis_prompt).
  rewrite Hchat, Hbody. cbv beta iota. unfold parse_content. rewrite Hjson.
  cbv beta iota.
  rewrite OcrVisionProps.dict_get_set_other by reflexivity. rewrite Hlen.
  eexists; eexists; split; [reflexivity|].
  split; [|unfold metadata_entry;
           rewrite OcrVisionProps.dict_get_set_same; repeat split; reflexivity].
  intros key Hkey. unfold field.
  apply OcrVisionProps.dict_get_set_other.
  apply String.eqb_neq; exact Hkey.
Qed.

(** The outcome of a call whose answer decodes to an object. *)
Lemma call_returns_decoded
    image_path analysis_prompt base64_image response body d n w :
  read_base64 image_path = Ok base64_image ->
  chat_completions_create model (prompt_of analysis_prompt)
    ("data:image/jpeg;base64," ++ base64_image) = Ok response ->
  content response = Some body ->
  json_loads (json_str_of body) = Some (PDict d) ->
  py_len match Py.dict_get "transcription" d with
         | Some v => v
         | None => PStr EmptyString
         end = Ok n ->
  exists metadata,
    extract_text_and_analyze image_path analysis_prompt w
    = (Ok (PDict (Py.dict_set "metadata" (PDict metadata) d)),
       add_cost (call_cost (usage response)) (tick w)).
Proof.
  intros Hread Hchat Hbody Hjson Hlen.
  unfold_call. rewrite Hread. fold (prompt_of analysis_prompt).
  rewrite Hchat, Hbody. cbv beta iota. unfold parse_content. rewrite Hjson.
  cbv beta iota.
  rewrite OcrVisionProps.dict_get_set_other by reflexivity. rewrite Hlen.
  eexists; reflexivity.
Qed.

(** A call writes no file. *)
Lemma call_keeps_files image_path analysis_prompt w :
  files (snd (extract_text_and_analyze image_path analysis_prompt w))
  = files w.
Proof. unfold_call. split_call; reflexivity. Qed.

(** A record the call returns names the image it was made for. *)
Lemma returned_record_names_image image_path analysis_prompt w :
  match extract_text_and_analyze image_path analysis_prompt w with
  | (Ok record, _) =>
      metadata_entry "image_path" record = Some (PStr image_path)
  | (Raise _, _) => True
  end.
Proof.
  unfold_call. split_call; try exact I.
  all: unfold metadata_entry; rewrite OcrVisionProps.dict_get_set_same;
    reflexivity.
Qed.

Lemma batch_process_loop_entries image_paths analysis_prompt :
  forall acc w,
  exists entries w',
    batch_process_loop image_paths analysis_prompt acc w
    = (Ok (acc ++ entries)%list, w')
    /\ Forall2
         (fun path entry =>
            metadata_entry "image_path" entry = Some (PStr path)
            \/ (field "image_path" entry = Some (PStr path)
                /\ exists e, field "error" entry = Some (PStr e)))
         image_paths entries.
Proof.
  induction image_paths as [|path rest IH]; intros acc w.
  - exists [], w. rewrite app_nil_r. split; [reflexivity | constructor].
  - cbn [batch_process_loop]. unfold Eff.bind, Eff.try_except.
    pose proof (returned_record_names_image path analysis_prompt w) as Hcall.
    destruct (extract_text_and_analyze path analysis_prompt w)
      as [[record | msg] w1].
    + destruct (IH (acc ++ [record])%list w1) as (entries & w' & Hloop & Hall).
      exists (record :: entries), w'.
      rewrite <- app_assoc in Hloop. split; [exact Hloop|].
      constructor; [left; exact Hcall | exact Hall].
    + cbv beta iota zeta delta [now Eff.bind Eff.ret].
      match goal with
      | |- context [batch_process_loop _ _ (acc ++ [?entry])%list ?w2] =>
          destruct (IH (acc ++ [entry])%list w2) as (entries & w' & Hloop & Hall);
          exists (entry :: entries), w'
      end.
      rewrite <- app_assoc in Hloop. split; [exact Hloop|].
      constructor; [right | exact Hall].
      split; [reflexivity | eexists; reflexivity].
Qed.

(** [batch_process] never raises: it returns one entry per image path,
    in the order of the paths; the entry of a call that returned is its
    record, the entry of a call that raised holds the error text and the
    path. *)
Theorem batch_process_one_entry_per_path image_paths analysis_prompt w :
  exists entries w',
    batch_process image_paths analysis_prompt w = (Ok entries, w')
    /\ List.length entries = List.length image_paths
    /\ Forall2
         (fun path entry =>
            metadata_entry "image_path" entry = Some (PStr path)
            \/ (field "image_path" entry = Some (PStr path)
                /\ exists e, field "error" entry = Some (PStr e)))
         image_paths entries.
Proof.
  destruct (batch_process_loop_entries image_paths analysis_prompt [] w)
    as (entries & w' & Hloop & Hall).
  exists entries, w'. split; [exact Hloop | split; [|exact Hall]].
  symmetry. eapply Forall2_length; exact Hall.
Qed.

End Client.

End OcrVisionMore.

(** ** The orchestrator, continued *)

Module IngestNotesMore.

Import IngestNotes.

Local Open Scope string_scope.

Ltac unfold_orchestrator :=
  cbv beta iota zeta delta
    [ process_single_image process_body preprocess_step
      save_processed_image cv2_imwrite write_text now
      Eff.try_except Eff.bind Eff.on_snd Eff.on_fst Eff.lift Eff.ret
      Eff.get Eff.raise Eff.modify fst snd ].

Ltac split_outcomes :=
  repeat match goal with
         | |- context [match ?x with _ => _ end] =>
             lazymatch x with
             | context [match _ with _ => _ end] => fail
             | _ => destruct x eqn:?; cbv beta iota zeta delta [fst snd]
             end
         end.

(** Records what a call of the client in the context did to the files. *)
Ltac note_calls :=
  repeat match goal with
         | H : OcrVision.extract_text_and_analyze ?p ?a ?w = (_, ?w') |- _ =>
             lazymatch goal with
             | _ : files w' = files w |- _ => fail
             | _ =>
                 let Hf := fresh "Hfiles" in
                 pose proof (OcrVisionMore.call_keeps_files p a w) as Hf;
                 rewrite H in Hf; cbv beta iota delta [snd] in Hf
             end
         end.

Section Orchestrator.

Context {pixel : Type} {cv2 : Preprocess.Cv2 pixel}
        {svc : OcrVision.VisionService} {host : Host pixel}.

Variable self : Pipeline.

(** The fields of every result agree with each other: a result without
    [success] carries an error text and no extraction record; an output
    path is recorded only after the extraction succeeded, and the path of
    the audit file only after the path of the markdown file; the result is
    free of an error exactly when the audit file was written; and the
    path of the normalised copy is recorded together with the trace. *)
Theorem result_fields_consistent image_path custom_prompt w :
  let r := fst (process_single_image self image_path custom_prompt w) in
  (success r = false -> error r <> None /\ ocr r = None)
  /\ (output_markdown r <> None -> success r = true)
  /\ (output_json r <> None -> output_markdown r <> None)
  /\ (error r = None <-> output_json r <> None)
  /\ (preprocessed_image r <> None <-> preprocessing r <> None)
  /\ source_image r = image_path.
Proof.
  unfold_orchestrator. split_outcomes.
  all: cbn; repeat split; intros; try congruence; try discriminate.
Qed.

(** An image that cannot be decoded: the result has [success = false]
    and the error text of the normaliser, the extraction service is not
    called, nothing is written and the running cost stays as it was. *)
Theorem undecodable_image_fails_early image_path custom_prompt w :
  preprocess_enabled self = true ->
  Preprocess.imread image_path = None ->
  process_single_image self image_path custom_prompt w
  = ({| source_image := image_path;
        timestamp := OcrVision.isoformat (clock w);
        success := false;
        preprocessed_image := None;
        preprocessing := None;
        ocr := None;
        output_markdown := None;
        output_json := None;
        error := Some ("Could not load image: " ++ image_path) |},
     tick w).
Proof.
  intros Hpre Hread. unfold_orchestrator. rewrite Hpre.
  unfold Preprocess.process_image. rewrite Hread. reflexivity.
Qed.

(** A result without [success] has written no note: it names no output
    file, and every file that is new after the run is an image (the
    normalised copy), never a markdown or an audit file. *)
Theorem failed_run_writes_no_note image_path custom_prompt w :
  let run := process_single_image self image_path custom_prompt w in
  success (fst run) = false ->
  output_markdown (fst run) = None
  /\ output_json (fst run) = None
  /\ (forall path body,
        In (path, body) (files (snd run)) ->
        In (path, body) (files w) \/ exists encoded, body = Jpeg encoded).
Proof.
  unfold_orchestrator. split_outcomes.
  all: cbn; intros Hfail; try discriminate Hfail.
  all: split; [reflexivity | split; [reflexivity|]].
  all: note_calls; intros path body Hin.
  all: repeat match goal with
              | H : files _ = _ |- _ => rewrite H in Hin; clear H
              end.
  all: cbn in Hin; try (left; exact Hin).
  all: apply in_app_or in Hin; destruct Hin as [Hin | Hin];
    [left; exact Hin | right].
  all: destruct Hin as [Hin | []]; inversion Hin; eexists; reflexivity.
Qed.

(** When a run ends without an error, the markdown file and the audit
    file are the last two files written, under the paths the result
    names; the audit file holds the result as it was just before the path
    of the audit file itself was recorded. *)
Theorem audit_file_holds_result image_path custom_prompt w :
  let run := process_single_image self image_path custom_prompt w in
  error (fst run) = None ->
  exists md js text audit earlier,
    output_markdown (fst run) = Some md
    /\ output_json (fst run) = Some js
    /\ files (snd run)
       = (earlier ++ [(md, Text text); (js, JsonResult audit)])%list
    /\ set_output_json js audit = fst run
    /\ output_json audit = None
    /\ success audit = true.
Proof.
  unfold_orchestrator. split_outcomes.
  all: cbn; intros Herr; try discriminate Herr.
  all: do 5 eexists; split; [reflexivity | split; [reflexivity|]].
  all: split; [rewrite <- app_assoc; reflexivity|].
  all: repeat split; reflexivity.
Qed.

Lemma result_names_image image_path custom_prompt w :
  source_image (fst (process_single_image self image_path custom_prompt w))
  = image_path.
Proof. unfold_orchestrator. split_outcomes; reflexivity. Qed.

Lemma process_all_sources image_paths custom_prompt :
  forall acc w,
  exists rs w',
    process_all self image_paths custom_prompt acc w = ((acc ++ rs)%list, w')
    /\ map source_image rs = image_paths.
Proof.
  induction image_paths as [|path rest IH]; intros acc w.
  - exists [], w. rewrite app_nil_r. split; reflexivity.
  - cbn [process_all].
    pose proof (result_names_image path custom_prompt w) as Hsrc.
    destruct (process_single_image self path custom_prompt w) as [r w1].
    destruct (IH (acc ++ [r])%list w1) as (rs & w' & Hloop & Hmap).
    exists (r :: rs), w'. rewrite <- app_assoc in Hloop.
    split; [exact Hloop|]. cbn [map]. cbn in Hsrc. congruence.
Qed.

Lemma insert_sorted_length leb x l :
  List.length (insert_sorted leb x l) = S (List.length l).
Proof.
  induction l as [|y l IH]; cbn; [reflexivity|].
  destruct (leb x y); cbn; congruence.
Qed.

Lemma sorted_length leb l : List.length (sorted leb l) = List.length l.
Proof.
  induction l as [|x l IH]; cbn; [reflexivity|].
  change (fold_right (insert_sorted leb) [] l) with (sorted leb l).
  rewrite insert_sorted_length; congruence.
Qed.

Lemma count_if_le (A : Type) (f : A -> bool) (l : list A) :
  Numpy.count_if f l <= List.length l.
Proof. apply filter_length_le. Qed.

(** With at least one matching file and a writable summary path,
    [process_directory] returns one result per matching file, in sorted
    order of the paths, and the last file it writes is the batch summary:
    it holds those results, their number as [total_images], the number of
    results with [success] as [successful], the rest as [failed], and the
    running cost. *)
Theorem batch_summary_persisted directory pattern custom_prompt w :
  glob directory pattern <> [] ->
  (forall stamp,
     write_error
       (path_join (output_dir self)
          ("batch_summary_" ++ strftime stamp ++ ".json")) = None) ->
  exists rs w' earlier stamp summary,
    process_directory self directory pattern custom_prompt w = (Ok rs, w')
    /\ map source_image rs = sorted path_leb (glob directory pattern)
    /\ files w'
       = (earlier
          ++ [(path_join (output_dir self)
                 ("batch_summary_" ++ strftime stamp ++ ".json"),
               JsonSummary summary)])%list
    /\ results summary = rs
    /\ total_images summary = List.length (glob directory pattern)
    /\ successful summary = Numpy.count_if success rs
    /\ successful summary + failed summary = total_images summary
    /\ summary_total_cost summary = total_cost w'.
Proof.
  intros Hglob Hwrite. unfold process_directory.
  pose proof (sorted_length path_leb (glob directory pattern)) as Hlen.
  destruct (sorted path_leb (glob directory pattern)) as [|p ps] eqn:Hsorted.
  - destruct (glob directory pattern); [congruence | discriminate].
  - destruct (process_all_sources (p :: ps) custom_prompt [] w)
      as (rs & w1 & Hloop & Hmap).
    cbn [app] in Hloop.
    unfold Eff.bind, Eff.ret, now, write_text. rewrite Hloop.
    cbv beta iota. rewrite Hwrite.
    exists rs. eexists. exists (files w1). eexists. eexists.
    split; [reflexivity|]. split; [exact Hmap|].
    split; [reflexivity|]. split; [reflexivity|].
    assert (Hrs : List.length rs = List.length (glob directory pattern)).
    { rewrite <- Hlen, <- Hmap. symmetry; apply length_map. }
    cbn. repeat split; try assumption; try reflexivity.
    pose proof (count_if_le success rs). lia.
Qed.

(** When the summary cannot be written, [process_directory] raises the
    error of the write after all images have been processed: the caller
    receives no result list. *)
Theorem unwritable_summary_raises directory pattern custom_prompt msg w :
  glob directory pattern <> [] ->
  (forall stamp,
     write_error
       (path_join (output_dir self)
          ("batch_summary_" ++ strftime stamp ++ ".json")) = Some msg) ->
  exists rs w1,
    process_all self (sorted path_leb (glob directory pattern))
      custom_prompt [] w = (rs, w1)
    /\ process_directory self directory pattern custom_prompt w
       = (Raise msg, tick (tick w1)).
Proof.
  intros Hglob Hwrite. unfold process_directory.
  pose proof (sorted_length path_leb (glob directory pattern)) as Hlen.
  destruct (sorted path_leb (glob directory pattern)) as [|p ps] eqn:Hsorted.
  - destruct (glob directory pattern); [congruence | discriminate].
  - destruct (process_all self (p :: ps) custom_prompt [] w) as [rs w1]
      eqn:Hloop.
    exists rs, w1. split; [reflexivity|].
    unfold Eff.bind, Eff.ret, Eff.raise, now, write_text. rewrite Hloop.
    cbv beta iota. rewrite Hwrite. reflexivity.
Qed.

End Orchestrator.

End IngestNotesMore.

(** ** The order in which a directory is processed *)

Module SortFacts.

Import IngestNotes.

Section Order.

Variable leb : string -> string -> bool.

Hypothesis leb_total : forall x y, leb x y = true \/ leb y x = true.
Hypothesis leb_trans :
  forall x y z, leb x y = true -> leb y z = true -> leb x z = true.

Lemma insert_sorted_permutation x l :
  Permutation (x :: l) (insert_sorted leb x l).
Proof.
  induction l as [|y l IH]; cbn; [reflexivity|].
  destruct (leb x y); [reflexivity|].
  rewrite perm_swap. apply perm_skip, IH.
Qed.

Lemma sorted_permutation l : Permutation l (sorted leb l).
Proof.
  induction l as [|x l IH]; cbn; [reflexivity|].
  change (fold_right (insert_sorted leb) [] l) with (sorted leb l).
  rewrite <- insert_sorted_permutation. apply perm_skip, IH.
Qed.

Lemma insert_sorted_ordered x l :
  StronglySorted (fun x y => leb x y = true) l ->
  StronglySorted (fun x y => leb x y = true) (insert_sorted leb x l).
Proof.
  induction 1 as [|y l Hl IH Hy]; cbn.
  - constructor; constructor.
  - destruct (leb x y) eqn:Hxy.
    + constructor; [constructor; assumption|].
      constructor; [exact Hxy|].
      eapply Forall_impl; [|exact Hy].
      intros z Hz. eapply leb_trans; eassumption.
    + constructor; [exact IH|].
      eapply Permutation_Forall; [apply insert_sorted_permutation|].
      constructor; [|exact Hy].
      destruct (leb_total x y) as [H | H]; [congruence | exact H].
Qed.

Lemma sorted_ordered l :
  StronglySorted (fun x y => leb x y = true) (sorted leb l).
Proof.
  induction l as [|x l IH]; cbn; [constructor|].
  apply insert_sorted_ordered, IH.
Qed.

Hypothesis leb_antisym :
  forall x y, leb x y = true -> leb y x = true -> x = y.

Lemma ordered_permutation_unique l1 :
  forall l2,
    StronglySorted (fun x y => leb x y = true) l1 ->
    StronglySorted (fun x y => leb x y = true) l2 ->
    Permutation l1 l2 -> l1 = l2.
Proof.
  induction l1 as [|x l1 IH]; intros l2 H1 H2 Hperm.
  - apply Permutation_nil in Hperm. congruence.
  - destruct l2 as [|y l2].
    + apply Permutation_sym, Permutation_nil in Hperm. discriminate.
    + apply StronglySorted_inv in H1. destruct H1 as [H1 Hx].
      apply StronglySorted_inv in H2. destruct H2 as [H2 Hy].
      assert (Hxy : x = y).
      { assert (Hin_y : In y (x :: l1))
          by (eapply Permutation_in;
              [apply Permutation_sym; exact Hperm | left; reflexivity]).
        assert (Hin_x : In x (y :: l2))
          by (eapply Permutation_in; [exact Hperm | left; reflexivity]).
        destruct Hin_y as [-> | Hin_y]; [reflexivity|].
        destruct Hin_x as [-> | Hin_x]; [reflexivity|].
        rewrite Forall_forall in Hx, Hy.
        apply leb_antisym; [apply Hx | apply Hy]; assumption. }
      subst y. f_equal. apply IH; try assumption.
      eapply Permutation_cons_inv; exact Hperm.
Qed.

End Order.

(** [sorted] rearranges the paths it is given, losing and adding none,
    into a list in which every path is below or equal to all the paths
    after it. *)
Theorem sorted_is_ordered_rearrangement
    (leb : string -> string -> bool) (l : list string) :
  (forall x y, leb x y = true \/ leb y x = true) ->
  (forall x y z, leb x y = true -> leb y z = true -> leb x z = true) ->
  Permutation l (sorted leb l)
  /\ StronglySorted (fun x y => leb x y = true) (sorted leb l).
Proof.
  intros Htotal Htrans. split.
  - apply sorted_permutation.
  - apply sorted_ordered; assumption.
Qed.

(** The order in which the files are processed does not depend on the
    order in which the directory lists them: two listings of the same
    files are sorted into the same list. *)
Theorem listing_order_irrelevant
    (leb : string -> string -> bool) (l l' : list string) :
  (forall x y, leb x y = true \/ leb y x = true) ->
  (forall x y z, leb x y = true -> leb y z = true -> leb x z = true) ->
  (forall x y, leb x y = true -> leb y x = true -> x = y) ->
  Permutation l l' ->
  sorted leb l = sorted leb l'.
Proof.
  intros Htotal Htrans Hanti Hperm.
  eapply ordered_permutation_unique.
  - exact Hanti.
  - apply sorted_ordered; assumption.
  - apply sorted_ordered; assumption.
  - rewrite <- !sorted_permutation. exact Hperm.
Qed.

(** The order of texts by character code is transitive. *)
Lemma string_leb_trans (a b c : string) :
  String.leb a b = true -> String.leb b c = true -> String.leb a c = true.
Proof.
  unfold String.leb.
  assert (H : forall a b c,
             String.compare a b <> Gt -> String.compare b c <> Gt ->
             String.compare a c <> Gt).
  { clear. induction a as [|x a IH]; intros [|y b] [|z c]; cbn;
      try congruence.
    destruct (Ascii.compare x y) eqn:Exy; try congruence.
    - apply Ascii.compare_eq_iff in Exy; subst y.
      destruct (Ascii.compare x z); try congruence. apply IH.
    - intros _. destruct (Ascii.compare y z) eqn:Eyz; try congruence.
      + apply Ascii.compare_eq_iff in Eyz; subst z. rewrite Exy. congruence.
      + unfold Ascii.compare in *. rewrite N.compare_lt_iff in Exy, Eyz.
        assert (Hxz : (N_of_ascii x < N_of_ascii z)%N) by lia.
        apply N.compare_lt_iff in Hxz. rewrite Hxz. congruence. }
  intros H1 H2. specialize (H a b c).
  destruct (String.compare a b), (String.compare b c), (String.compare a c);
    try reflexivity; try discriminate; exfalso; apply H; congruence.
Qed.

End SortFacts.

(** ** The rendering of a record *)

Module MarkdownFacts.

Import Markdown.

Local Open Scope string_scope.

Lemma join_items_text (l : list string) :
  forall i, join_items i (map PStr l) = Ok l.
Proof.
  induction l as [|s l IH]; intros i; cbn; [reflexivity|].
  rewrite IH. reflexivity.
Qed.

(** [str.join] raises as soon as one item is not text. *)
Lemma join_items_raises (parts : list pyval) (v : pyval) :
  In v parts -> (forall s, v <> PStr s) ->
  forall i, exists msg, join_items i parts = Raise msg.
Proof.
  intros Hin Hv. induction parts as [|p parts IH]; [destruct Hin|].
  intros i. destruct Hin as [-> | Hin].
  - destruct v; cbn; try (eexists; reflexivity).
    exfalso; eapply Hv; reflexivity.
  - destruct p; cbn; try (eexists; reflexivity).
    destruct (IH Hin (S i)) as [msg ->]. eexists; reflexivity.
Qed.

Section Render.

Context {pixel : Type} {host : IngestNotes.Host pixel} {renderer : Renderer}.

(** A record with the fields in their expected types renders without an
    error to the lines of the document in their fixed order: front
    matter, title, transcription, then the questions with one bullet per
    item, then the analysis notes, then the processing footer.  The
    section of the questions is left out as a whole when the list is
    empty, the section of the notes when the text is empty. *)
Theorem typed_record_renders
    (d m tk : list (string * pyval)) (t n cost : string)
    (items : list string) (source_path : string) (stamp : nat) :
  get_or "transcription" (PStr "") d = PStr t ->
  get_or "questions_or_insights" (PList []) d = PList (map PStr items) ->
  get_or "notes" (PStr "") d = PStr n ->
  get_or "metadata" (PDict []) d = PDict m ->
  get_or "tokens_used" (PDict []) m = PDict tk ->
  format_4f (get_or "estimated_cost" (PInt 0) m) = Ok cost ->
  create_markdown (PDict d) source_path stamp
  = Ok (PyText.join newline
          ([ "---";
             Py.strip (yaml_dump (frontmatter d source_path stamp));
             "---";
             "";
             ("# Notes from " ++ IngestNotes.path_stem source_path)%string;
             "";
             "## Transcription";
             "";
             t;
             "" ]
           ++ match items with
              | [] => []
              | _ => ["## Questions & Insights"; ""]
                     ++ map (fun item => ("- " ++ item)%string) items ++ [""]
              end
           ++ (if String.eqb n "" then []
               else ["## Analysis Notes"; ""; n; ""])
           ++ [ "---";
                "";
                "**Processing Info:**";
                ("- Model: " ++ py_str (get_or "model" (PStr "N/A") m))%string;
                ("- Timestamp: "
                 ++ py_str (get_or "timestamp" (PStr "N/A") m))%string;
                ("- Tokens: " ++ py_str (get_or "total" (PStr "N/A") tk))%string;
                ("- Cost: $" ++ cost)%string ])%list).
Proof.
  intros Ht Hq Hn Hm Htk Hcost.
  unfold create_markdown, head_parts, insight_parts, notes_parts,
    footer_parts.
  rewrite Ht, Hq, Hn, Hm. cbn [attr_get res_bind]. rewrite Htk.
  cbn [attr_get res_bind]. rewrite Hcost. cbn [res_bind].
  destruct items as [|item items], (String.eqb n "") eqn:En;
    cbn [truthy negb iterate res_bind map app]; rewrite ?En;
    cbn [negb res_bind app].
  all: match goal with
       | |- res_bind (join_items 0 ?parts) _ = Ok (PyText.join _ ?lines) =>
           replace parts with (map PStr lines);
           [ rewrite join_items_text; reflexivity
           | cbn [map app];
             rewrite ?map_app, ?map_map, ?app_nil_r, <- ?app_assoc;
             cbn [map app]; reflexivity ]
       end.
Qed.

Lemma parts_rejected
    (d : list (string * pyval)) (v : pyval) (source_path : string)
    (stamp : nat) (insights footer : list pyval) :
  Py.dict_get "transcription" d = Some v ->
  (forall s, v <> PStr s) ->
  exists msg,
    join_items 0
      ((head_parts d source_path stamp ++ insights)
         ++ notes_parts d ++ footer)%list
    = Raise msg.
Proof.
  intros Hget Hv. rewrite <- app_assoc.
  apply (@join_items_raises _ v); [|exact Hv].
  apply in_or_app; left.
  unfold head_parts, get_or. rewrite Hget. cbn. tauto.
Qed.

(** A record whose transcription is not text cannot be rendered:
    [_create_markdown] raises, whatever the other fields hold. *)
Theorem non_text_transcription_raises
    (d : list (string * pyval)) (v : pyval)
    (source_path : string) (stamp : nat) :
  Py.dict_get "transcription" d = Some v ->
  (forall s, v <> PStr s) ->
  exists msg, create_markdown (PDict d) source_path stamp = Raise msg.
Proof.
  intros Hget Hv. unfold create_markdown.
  destruct (insight_parts d) as [insights | msg]; cbn [res_bind];
    [|eexists; reflexivity].
  destruct (footer_parts d) as [footer | msg]; cbn [res_bind];
    [|eexists; reflexivity].
  destruct (@parts_rejected d v source_path stamp insights footer Hget Hv)
    as [msg Hmsg].
  rewrite <- !app_assoc in Hmsg. rewrite <- !app_assoc.
  rewrite Hmsg. eexists; reflexivity.
Qed.

End Render.

Section Pipeline.

Context {pixel : Type} {cv2 : Preprocess.Cv2 pixel}
        {svc : OcrVision.VisionService} {host : IngestNotes.Host pixel}
        {renderer : Renderer}.

Variable self : IngestNotes.Pipeline.

(** An answer whose transcription is a JSON list passes the client and
    fails in the renderer: the call is charged, the result is flagged
    [success] and carries the record, and yet it carries an error, names
    no output file, and no file is written. *)
Theorem list_transcription_charged_not_rendered
    image_path custom_prompt base64_image response body d l w :
  IngestNotes.preprocess_enabled self = false ->
  OcrVision.read_base64 image_path = Ok base64_image ->
  OcrVision.chat_completions_create OcrVision.model
    (Ledger.prompt_of custom_prompt)
    ("data:image/jpeg;base64," ++ base64_image) = Ok response ->
  OcrVision.content response = Some body ->
  OcrVision.json_loads (OcrVision.json_str_of body) = Some (PDict d) ->
  Py.dict_get "transcription" d = Some (PList l) ->
  let run :=
    IngestNotes.process_single_image (host := rendering_host) self
      image_path custom_prompt w in
  success (fst run) = true
  /\ ocr (fst run) <> None
  /\ error (fst run) <> None
  /\ output_markdown (fst run) = None
  /\ output_json (fst run) = None
  /\ files (snd run) = files w
  /\ total_cost (snd run)
     = (total_cost w + OcrVision.call_cost (OcrVision.usage response))%Q.
Proof.
  intros Hpre Hread Hchat Hbody Hjson Hget.
  destruct (@OcrVisionMore.call_returns_decoded svc image_path custom_prompt
              base64_image response body d (List.length l) (tick w)
              Hread Hchat Hbody Hjson)
    as [metadata Hcall]; [rewrite Hget; reflexivity|].
  IngestNotesMore.unfold_orchestrator. rewrite Hpre. cbv beta iota.
  rewrite Hcall. cbv beta iota zeta delta [fst snd].
  cbn [IngestNotes.create_markdown rendering_host].
  assert (Hraise : exists msg,
             create_markdown
               (PDict (Py.dict_set "metadata" (PDict metadata) d))
               image_path
               (clock (tick (add_cost (OcrVision.call_cost
                                         (OcrVision.usage response))
                               (tick (tick w)))))
             = Raise msg).
  { unfold create_markdown.
    destruct (insight_parts _) as [insights | msg]; cbn [res_bind];
      [|eexists; reflexivity].
    destruct (footer_parts _) as [footer | msg]; cbn [res_bind];
      [|eexists; reflexivity].
    match goal with
    | |- context [join_items 0 ?parts] =>
        assert (Hparts : exists msg, join_items 0 parts = Raise msg)
    end.
    { rewrite <- !app_assoc. rewrite app_assoc.
      apply parts_rejected with (v := PList l); [|intros s; discriminate].
      rewrite OcrVisionProps.dict_get_set_other by reflexivity. exact Hget. }
    destruct Hparts as [msg ->]. eexists; reflexivity. }
  destruct Hraise as [msg Hmsg]. cbn in Hmsg |- *. rewrite Hmsg.
  cbn. repeat split; try reflexivity; discriminate.
Qed.

End Pipeline.

End MarkdownFacts.

(** ** The command line *)

Module CliFacts.

Import Cli.

Local Open Scope string_scope.

Lemma all_counted (A : Type) (f : A -> bool) (l : list A) :
  Nat.eqb (Numpy.count_if f l) (List.length l) = forallb f l.
Proof.
  unfold Numpy.count_if. induction l as [|x l IH]; cbn; [reflexivity|].
  destruct (f x); cbn; [exact IH|].
  apply Nat.eqb_neq. pose proof (filter_length_le f l). lia.
Qed.

Section Main.

Context {pixel : Type} {cv2 : Preprocess.Cv2 pixel}
        {svc : OcrVision.VisionService} {host : IngestNotes.Host pixel}
        {shell : Shell}.

(** Lines 341-349 read the prompt file and change nothing. *)
Lemma load_prompt_keeps_world (args : Args) (w : World) :
  snd (load_prompt args w) = w.
Proof.
  unfold load_prompt, Eff.bind, Eff.lift, Eff.ret.
  destruct (present (prompt args)) as [prompt_path|]; [|reflexivity].
  destruct (path_exists prompt_path); [|reflexivity].
  destruct (read_text prompt_path); reflexivity.
Qed.

Lemma pipeline_init_starts (args : Args) (w : World) :
  starts args ->
  pipeline_init (output args) (negb (no_preprocess args))
    (negb (no_save_images args)) w
  = (Ok (pipeline_of args), reset_cost w).
Proof.
  intros ((key & Hkey) & Hout & Hnotes & Hproc).
  unfold pipeline_init, vision_ocr_init, mkdir, Eff.bind, Eff.ret, Eff.modify.
  rewrite Hout. cbn [present]. rewrite Hkey.
  fold (pipeline_of args). rewrite Hnotes.
  destruct (no_save_images args); cbn [negb]; [reflexivity|].
  rewrite (Hproc eq_refl). reflexivity.
Qed.

(** [main] up to the construction of the pipeline: an error of the
    prompt file ends it; otherwise the pipeline is built and the rest
    runs with the prompt that was loaded. *)
Lemma main_after_start (args : Args) (w : World) :
  starts args ->
  match load_prompt args w with
  | (Ok custom_prompt, _) =>
      main args w
      = (if negb (path_exists (input args)) then Eff.ret 1
         else if is_file (input args) then
           Eff.bind
             (fun w0 =>
                let (r, w') :=
                  IngestNotes.process_single_image (pipeline_of args)
                    (input args) custom_prompt w0 in
                (Ok r, w'))
             (fun result => Eff.ret (if success result then 0 else 1))
         else if is_dir (input args) then
           Eff.bind
             (IngestNotes.process_directory (pipeline_of args) (input args)
                (pattern args) custom_prompt)
             (fun rs =>
                Eff.ret (if Nat.eqb (Numpy.count_if success rs)
                              (List.length rs)
                         then 0 else 1))
         else Eff.ret 1) (reset_cost w)
  | (Raise msg, _) => main args w = (Raise msg, w)
  end.
Proof.
  intros Hstart.
  pose proof (load_prompt_keeps_world args w) as Hkeep.
  destruct (load_prompt args w) as [[custom_prompt | msg] w0] eqn:Hload;
    cbn [snd] in Hkeep; subst w0;
    unfold main; unfold Eff.bind at 1; rewrite Hload; [|reflexivity].
  unfold Eff.bind at 1. rewrite (pipeline_init_starts w Hstart). reflexivity.
Qed.

(** Without an API key in the environment, once the prompt file, if one
    is named and exists, has been read and the output directory is
    there, [main] ends with the error of the client's constructor before
    any input is looked at; the world is as it was.  An error of reading
    the prompt file ends [main] before that. *)
Theorem main_needs_api_key (args : Args) (w : World) :
  IngestNotes.mkdir_error (output args) = None ->
  present getenv_api_key = None ->
  match load_prompt args w with
  | (Ok _, _) =>
      main args w
      = (Raise
           "OpenAI API key required. Set OPENAI_API_KEY environment variable.",
         w)
  | (Raise msg, _) => main args w = (Raise msg, w)
  end.
Proof.
  intros Hout Hkey.
  pose proof (load_prompt_keeps_world args w) as Hkeep.
  destruct (load_prompt args w) as [[custom_prompt | msg] w0] eqn:Hload;
    cbn [snd] in Hkeep; subst w0;
    unfold main; unfold Eff.bind at 1; rewrite Hload; [|reflexivity].
  unfold pipeline_init, vision_ocr_init, mkdir, Eff.bind, Eff.ret, Eff.raise.
  rewrite Hout. cbn [present]. rewrite Hkey. reflexivity.
Qed.

(** An input path that does not exist: [main] exits with status 1 and
    processes nothing. *)
Theorem main_missing_input (args : Args) (w : World) :
  starts args ->
  path_exists (input args) = false ->
  match load_prompt args w with
  | (Ok _, _) => main args w = (Ok 1, reset_cost w)
  | (Raise msg, _) => main args w = (Raise msg, w)
  end.
Proof.
  intros Hstart Hmissing.
  pose proof (main_after_start w Hstart) as Hmain.
  destruct (load_prompt args w) as [[custom_prompt | msg] w0]; [|exact Hmain].
  rewrite Hmain, Hmissing. reflexivity.
Qed.

(** A directory as input, with the prompt [main] has loaded (none when
    no prompt file is named or the named file does not exist): [main]
    exits with status 0 exactly when every result of
    [process_directory] has [success], with status 1 otherwise; an error
    of [process_directory] ends [main] uncaught, and so does an error of
    reading the prompt file, before the pipeline is built. *)
Theorem main_directory_status (args : Args) (w : World) :
  starts args ->
  path_exists (input args) = true ->
  is_file (input args) = false ->
  is_dir (input args) = true ->
  match load_prompt args w with
  | (Ok custom_prompt, _) =>
      match IngestNotes.process_directory (pipeline_of args) (input args)
              (pattern args) custom_prompt (reset_cost w) with
      | (Ok rs, w') =>
          main args w = (Ok (if forallb success rs then 0 else 1), w')
      | (Raise msg, w') => main args w = (Raise msg, w')
      end
  | (Raise msg, _) => main args w = (Raise msg, w)
  end.
Proof.
  intros Hstart Hexists Hfile Hdir.
  pose proof (main_after_start w Hstart) as Hmain.
  destruct (load_prompt args w) as [[custom_prompt | msg] w0]; [|exact Hmain].
  rewrite Hmain, Hexists, Hfile, Hdir. cbn [negb]. unfold Eff.bind, Eff.ret.
  destruct (IngestNotes.process_directory _ _ _ _ _) as [[rs | msg] w'];
    [|reflexivity].
  rewrite all_counted. reflexivity.
Qed.

(** A directory in which no file matches the pattern: whatever prompt
    was loaded, [main] exits with status 0 and nothing is processed;
    only an error of reading the prompt file, which ends [main] before
    the pipeline is built, stands in the way. *)
Theorem main_empty_directory_status (args : Args) (w : World) :
  starts args ->
  path_exists (input args) = true ->
  is_file (input args) = false ->
  is_dir (input args) = true ->
  IngestNotes.glob (input args) (pattern args) = [] ->
  match load_prompt args w with
  | (Ok _, _) => main args w = (Ok 0, reset_cost w)
  | (Raise msg, _) => main args w = (Raise msg, w)
  end.
Proof.
  intros Hstart Hexists Hfile Hdir Hglob.
  pose proof (main_after_start w Hstart) as Hmain.
  destruct (load_prompt args w) as [[custom_prompt | msg] w0]; [|exact Hmain].
  rewrite Hmain, Hexists, Hfile, Hdir. cbn [negb]. unfold Eff.bind, Eff.ret.
  unfold IngestNotes.process_directory. rewrite Hglob. reflexivity.
Qed.

(** A single file as input: [main] exits with status 0 exactly when the
    result of [process_single_image], run with the prompt that was
    loaded, has [success]. *)
Theorem main_file_status (args : Args) (w : World) :
  starts args ->
  path_exists (input args) = true ->
  is_file (input args) = true ->
  match load_prompt args w with
  | (Ok custom_prompt, _) =>
      main args w
      = (Ok (if success
                  (fst (IngestNotes.process_single_image (pipeline_of args)
                          (input args) custom_prompt (reset_cost w)))
             then 0 else 1),
         snd (IngestNotes.process_single_image (pipeline_of args)
                (input args) custom_prompt (reset_cost w)))
  | (Raise msg, _) => main args w = (Raise msg, w)
  end.
Proof.
  intros Hstart Hexists Hfile.
  pose proof (main_after_start w Hstart) as Hmain.
  destruct (load_prompt args w) as [[custom_prompt | msg] w0]; [|exact Hmain].
  rewrite Hmain, Hexists, Hfile. cbn [negb]. unfold Eff.bind, Eff.ret.
  destruct (IngestNotes.process_single_image _ _ _ _) as [r w'].
  reflexivity.
Qed.

End Main.

End CliFacts.

(** ** The further statements on concrete worlds *)

Module MoreChecks.

Import Preprocess OcrVision IngestNotes Ledger.

Local Open Scope string_scope.

Lemma quarter_turns_compose_witness :
  rotate_image (cv2 := Demo.cv2_blank)
    (rotate_image (cv2 := Demo.cv2_blank) Demo.page 90) 270
  = Demo.page.
Proof.
  refine (proj1 (@PreprocessMore.quarter_turns_compose nat Demo.cv2_blank
                   Demo.page _)).
  exists 2, 3. repeat split; try lia; repeat constructor.
Defined.

Lemma strict_plurality_decides_witness :
  detect_orientation (cv2 := Demo.cv2_sideways) Demo.page = angle_of_bin 1.
Proof.
  refine (@PreprocessMore.strict_plurality_decides nat Demo.cv2_sideways
            Demo.page [(10, 11 # 7); (25, 11 # 7)]%Q 1 eq_refl _ _).
  - lia.
  - intros j Hj Hne. destruct j as [|[|[|[|[|j]]]]]; try lia;
      vm_compute; lia.
Defined.

Lemma line_order_irrelevant_witness :
  detect_orientation (cv2 := Samples.cv2_two_lines) Demo.page
  = detect_orientation (cv2 := Samples.cv2_two_lines) Samples.turned_page.
Proof.
  refine (@PreprocessMore.line_order_irrelevant nat Samples.cv2_two_lines
            Demo.page Samples.turned_page
            [(10, 11 # 7); (25, 1 # 7)]%Q [(25, 1 # 7); (10, 11 # 7)]%Q
            eq_refl eq_refl _).
  apply perm_swap.
Defined.

Lemma final_size_follows_rotation_witness :
  exists out meta,
    process_image (cv2 := Demo.cv2_sideways) "inbox/page1.jpg" true true true
    = Ok (out, meta)
    /\ original_size meta = (2, 3)
    /\ final_size meta = Some (shape out).
Proof.
  destruct (@PreprocessMore.final_size_follows_rotation nat Demo.cv2_sideways
              "inbox/page1.jpg" Demo.page true true true)
    as (out & meta & Hrun & Horig & Hfinal & _).
  - intros img; reflexivity.
  - intros img; reflexivity.
  - reflexivity.
  - exists 2, 3. repeat split; try lia; repeat constructor.
  - exists out, meta. repeat split; assumption.
Defined.

Lemma split_pieces_witness :
  2 <= List.length (Py.split "```" "a```b").
Proof.
  refine (proj1 (@TextFacts.split_pieces "```" "a```b" _) _).
  - discriminate.
  - reflexivity.
Defined.

Lemma json_fence_extracted_witness :
  json_str_of
    (("Here it is:" ++ Markdown.newline) ++ fence_json
     ++ (Markdown.newline ++ Samples.hello_json ++ Markdown.newline)
     ++ fence ++ Markdown.newline)
  = Py.strip (Markdown.newline ++ Samples.hello_json ++ Markdown.newline).
Proof.
  apply FenceFacts.json_fence_extracted; reflexivity.
Defined.

Lemma plain_fence_extracted_witness :
  json_str_of ("Answer: " ++ fence ++ " {} " ++ fence ++ "") = Py.strip " {} ".
Proof.
  apply FenceFacts.plain_fence_extracted; reflexivity.
Defined.

Lemma failed_call_changes_nothing_witness :
  extract_text_and_analyze (svc := Samples.svc_unreadable) "inbox/page1.jpg"
    None Demo.world0
  = (Raise "[Errno 2] No such file or directory", Demo.world0).
Proof.
  apply OcrVisionMore.failed_call_changes_nothing. left; reflexivity.
Defined.

Lemma non_object_answer_raises_uncharged_witness :
  exists msg w',
    extract_text_and_analyze (svc := Samples.svc_list) "inbox/page1.jpg"
      None Demo.world0 = (Raise msg, w')
    /\ total_cost w' = total_cost Demo.world0
    /\ files w' = files Demo.world0.
Proof.
  refine (@OcrVisionMore.non_object_answer_raises_uncharged Samples.svc_list
            "inbox/page1.jpg" None "aGVsbG8=" (Samples.answer "[1, 2]")
            "[1, 2]" (PList [PInt 1; PInt 2]) Demo.world0
            eq_refl eq_refl eq_refl eq_refl _).
  intros d; discriminate.
Defined.

Lemma call_never_lowers_cost_witness :
  (total_cost Demo.world0 <= total_cost (snd Demo.plain_call))%Q.
Proof.
  refine (proj1 (@OcrVisionMore.call_never_lowers_cost Demo.svc_plain
                   "inbox/page1.jpg" None Demo.world0 _)).
  intros m p u response H. inversion H; subst. simpl. lia.
Defined.

Lemma decoded_fields_kept_witness :
  exists record w',
    extract_text_and_analyze (svc := Samples.svc_fenced) "inbox/page1.jpg"
      None Demo.world0 = (Ok record, w')
    /\ field "transcription" record = Some (PStr "Hello").
Proof.
  destruct (@OcrVisionMore.decoded_fields_kept Samples.svc_fenced
              "inbox/page1.jpg" None "aGVsbG8="
              (Samples.answer Samples.fenced_hello) Samples.fenced_hello
              Samples.hello_record 5 Demo.world0
              eq_refl eq_refl eq_refl eq_refl eq_refl)
    as (record & w' & Hrun & Hfields & _).
  exists record, w'. split; [exact Hrun|].
  rewrite Hfields by discriminate. reflexivity.
Defined.

Lemma undecodable_image_fails_early_witness :
  success (fst Samples.undecodable_run) = false
  /\ error (fst Samples.undecodable_run)
     = Some "Could not load image: inbox/page1.jpg"
  /\ snd Samples.undecodable_run = tick Demo.world0.
Proof.
  unfold Samples.undecodable_run.
  rewrite (@IngestNotesMore.undecodable_image_fails_early nat
             Samples.cv2_unreadable Demo.svc_plain Demo.host
             Demo.pipeline_saving "inbox/page1.jpg" None Demo.world0
             eq_refl eq_refl).
  repeat split; reflexivity.
Defined.

Lemma failed_run_writes_no_note_witness :
  output_markdown (fst Samples.undecodable_run) = None.
Proof.
  refine (proj1 (@IngestNotesMore.failed_run_writes_no_note nat
                   Samples.cv2_unreadable Demo.svc_plain Demo.host
                   Demo.pipeline_saving "inbox/page1.jpg" None Demo.world0 _)).
  reflexivity.
Defined.

Lemma audit_file_holds_result_witness :
  exists js audit,
    output_json (fst Demo.saving_run) = Some js
    /\ set_output_json js audit = fst Demo.saving_run.
Proof.
  destruct (@IngestNotesMore.audit_file_holds_result nat Demo.cv2_sideways
              Demo.svc_plain Demo.host Demo.pipeline_saving
              "inbox/page1.jpg" None Demo.world0 eq_refl)
    as (md & js & text & audit & earlier & _ & Hjs & _ & Haudit & _).
  exists js, audit. split; assumption.
Defined.

Lemma batch_summary_persisted_witness :
  exists rs w',
    process_directory (cv2 := Demo.cv2_blank) (svc := Demo.svc_plain)
      (host := Samples.host_two_files) Demo.pipeline_saving "inbox" "*.jpg"
      None Demo.world0 = (Ok rs, w')
    /\ map source_image rs = ["inbox/a.jpg"; "inbox/b.jpg"].
Proof.
  destruct (@IngestNotesMore.batch_summary_persisted nat Demo.cv2_blank
              Demo.svc_plain Samples.host_two_files Demo.pipeline_saving
              "inbox" "*.jpg" None Demo.world0)
    as (rs & w' & earlier & stamp & summary & Hrun & Hmap & _).
  - discriminate.
  - intros stamp; reflexivity.
  - exists rs, w'. split; [exact Hrun | exact Hmap].
Defined.

Lemma unwritable_summary_raises_witness :
  exists w',
    process_directory (cv2 := Demo.cv2_blank) (svc := Demo.svc_plain)
      (host := Samples.host_two_files) Demo.pipeline_locked "inbox" "*.jpg"
      None Demo.world0
    = (Raise "[Errno 13] Permission denied", w').
Proof.
  destruct (@IngestNotesMore.unwritable_summary_raises nat Demo.cv2_blank
              Demo.svc_plain Samples.host_two_files Demo.pipeline_locked
              "inbox" "*.jpg" None "[Errno 13] Permission denied" Demo.world0)
    as (rs & w1 & _ & Hrun).
  - discriminate.
  - intros stamp; reflexivity.
  - eexists; exact Hrun.
Defined.

Lemma sorted_is_ordered_rearrangement_witness :
  Permutation ["inbox/b.jpg"; "inbox/a.jpg"]
    (sorted String.leb ["inbox/b.jpg"; "inbox/a.jpg"]).
Proof.
  refine (proj1 (@SortFacts.sorted_is_ordered_rearrangement String.leb
                   ["inbox/b.jpg"; "inbox/a.jpg"] _ _)).
  - exact String.leb_total.
  - exact SortFacts.string_leb_trans.
Defined.

Lemma listing_order_irrelevant_witness :
  sorted String.leb ["inbox/b.jpg"; "inbox/a.jpg"]
  = sorted String.leb ["inbox/a.jpg"; "inbox/b.jpg"].
Proof.
  apply SortFacts.listing_order_irrelevant.
  - exact String.leb_total.
  - exact SortFacts.string_leb_trans.
  - exact String.leb_antisym.
  - apply perm_swap.
Defined.

Lemma typed_record_renders_witness :
  exists text,
    Markdown.create_markdown (host := Demo.host)
      (renderer := Samples.renderer) (PDict Samples.typed_record)
      "inbox/page1.jpg" 0
    = Ok text.
Proof.
  eexists.
  refine (@MarkdownFacts.typed_record_renders nat Demo.host Samples.renderer
            Samples.typed_record
            [ ("model", PStr "gpt-4o");
              ("tokens_used", PDict [("total", PInt 1500)]);
              ("estimated_cost", PFloat (6 # 1000)) ]
            [("total", PInt 1500)] "Hello" "" "0.0060" ["What is being?"]
            "inbox/page1.jpg" 0 eq_refl eq_refl eq_refl eq_refl eq_refl eq_refl).
Defined.

Lemma non_text_transcription_raises_witness :
  exists msg,
    Markdown.create_markdown (host := Demo.host)
      (renderer := Samples.renderer) (PDict Samples.lines_record)
      "inbox/page1.jpg" 0
    = Raise msg.
Proof.
  refine (@MarkdownFacts.non_text_transcription_raises nat Demo.host
            Samples.renderer Samples.lines_record
            (PList [PStr "first line"; PStr "second line"])
            "inbox/page1.jpg" 0 eq_refl _).
  intros s; discriminate.
Defined.

Lemma list_transcription_charged_not_rendered_witness :
  success
    (fst (process_single_image (cv2 := Demo.cv2_blank)
            (svc := Samples.svc_lines)
            (host := Markdown.rendering_host (host := Demo.host)
                       (renderer := Samples.renderer))
            Demo.pipeline_locked "inbox/page1.jpg" None Demo.world0))
  = true.
Proof.
  refine (proj1 (@MarkdownFacts.list_transcription_charged_not_rendered nat
                   Demo.cv2_blank Samples.svc_lines Demo.host Samples.renderer
                   Demo.pipeline_locked "inbox/page1.jpg" None "aGVsbG8="
                   (Samples.answer "{...}") "{...}" Samples.lines_record
                   [PStr "first line"; PStr "second line"] Demo.world0
                   eq_refl eq_refl eq_refl eq_refl eq_refl eq_refl)).
Defined.

Lemma main_needs_api_key_witness :
  Cli.main (cv2 := Demo.cv2_blank) (svc := Demo.svc_plain)
    (host := Demo.host) (shell := Samples.shell_without_key)
    Samples.args_prompted Demo.world0
  = (Raise "OpenAI API key required. Set OPENAI_API_KEY environment variable.",
     Demo.world0).
Proof.
  apply (@CliFacts.main_needs_api_key nat Demo.cv2_blank Demo.svc_plain
           Demo.host Samples.shell_without_key Samples.args_prompted
           Demo.world0); reflexivity.
Defined.

Lemma main_directory_status_witness :
  Cli.load_prompt (shell := Samples.shell_with_key) Samples.args_prompted
    Demo.world0
  = (Ok (Some "Transcribe the page."), Demo.world0)
  /\ match process_directory (cv2 := Demo.cv2_blank) (svc := Demo.svc_plain)
             (host := Samples.host_two_files)
             (Cli.pipeline_of Samples.args_prompted) "inbox" "*.jpg"
             (Some "Transcribe the page.") (Cli.reset_cost Demo.world0) with
     | (Ok rs, w') =>
         Cli.main (cv2 := Demo.cv2_blank) (svc := Demo.svc_plain)
           (host := Samples.host_two_files) (shell := Samples.shell_with_key)
           Samples.args_prompted Demo.world0
         = (Ok (if forallb success rs then 0 else 1), w')
     | (Raise msg, w') =>
         Cli.main (cv2 := Demo.cv2_blank) (svc := Demo.svc_plain)
           (host := Samples.host_two_files) (shell := Samples.shell_with_key)
           Samples.args_prompted Demo.world0
         = (Raise msg, w')
     end.
Proof.
  assert (Hload : Cli.load_prompt (shell := Samples.shell_with_key)
                    Samples.args_prompted Demo.world0
                  = (Ok (Some "Transcribe the page."), Demo.world0))
    by reflexivity.
  split; [exact Hload|].
  assert (Hstart : Cli.starts (host := Samples.host_two_files)
                     (shell := Samples.shell_with_key) Samples.args_prompted).
  { unfold Cli.starts. repeat split; try reflexivity. eexists; reflexivity. }
  pose proof (@CliFacts.main_directory_status nat Demo.cv2_blank Demo.svc_plain
                Samples.host_two_files Samples.shell_with_key
                Samples.args_prompted Demo.world0 Hstart eq_refl eq_refl
                eq_refl) as Hmain.
  rewrite Hload in Hmain. exact Hmain.
Defined.

Lemma main_empty_directory_status_witness :
  Cli.main (cv2 := Demo.cv2_blank) (svc := Demo.svc_plain)
    (host := Demo.host) (shell := Samples.shell_with_key)
    Samples.args_prompted Demo.world0
  = (Ok 0, Cli.reset_cost Demo.world0).
Proof.
  apply (@CliFacts.main_empty_directory_status nat Demo.cv2_blank
           Demo.svc_plain Demo.host Samples.shell_with_key
           Samples.args_prompted Demo.world0); try reflexivity.
  unfold Cli.starts. repeat split; try reflexivity.
  eexists; reflexivity.
Defined.

End MoreChecks.
